(** * python-prompt-manager: a shallow embedding of the registry, the cache,
    the source adapters and the manager, and the properties checked on it.

    Layout: Python strings and [str.format], then one module per source
    file ([Exceptions], [Config], [PromptRegistry], [OpenAIPromptSource],
    [LocalFileSource], [PromptManager]), the world they run in ([Env]),
    fixtures and the vocabulary of the statements, then the lemmas.

    Conventions of the embedding.
    - A Python [dict] with string keys is a [gmap string _]; a [set] is a [gset].
    - [Optional[X]] is [option X]; Python truthiness is written out
      ([truthy_str], [truthy_oint], [or_int], ...).
    - A call that can raise returns an [outcome]: [Return v] or [Raise e].
      The third case, [Beyond], marks a run that leaves the part of Python
      that is modelled (see [PyFormat]); it is never caught.
    - Everything outside the process (wall clock, [time.sleep], the OpenAI
      client, the file system) lives in a [World] that is threaded through
      every call together with the object's own state. *)

From Stdlib Require Import ZArith Ascii String List Lia Bool.
From stdpp Require Import base decidable option gmap strings pretty.

Open Scope string_scope.
Open Scope Z_scope.

(** ** Python strings *)

Module PyStr.

(** [c.lower()] on one ASCII character; other code points are left alone. *)
Definition lower_ascii (c : ascii) : ascii :=
  let n := nat_of_ascii c in
  if (Nat.leb 65 n && Nat.leb n 90)%bool then ascii_of_nat (n + 32) else c.

(** [s.lower()] *)
Fixpoint lower (s : string) : string :=
  match s with
  | EmptyString => EmptyString
  | String c r => String (lower_ascii c) (lower r)
  end.

(** [needle in hay] *)
Fixpoint contains (needle hay : string) : bool :=
  String.prefix needle hay
  || match hay with
     | EmptyString => false
     | String _ r => contains needle r
     end.

(** [bool(s)] for a string *)
Definition truthy_str (s : string) : bool :=
  match s with EmptyString => false | _ => true end.

(** [bool(o)] for an [Optional[str]] *)
Definition truthy_ostr (o : option string) : bool :=
  match o with Some s => truthy_str s | None => false end.

(** [bool(n)] for an [Optional[int]] *)
Definition truthy_oint (o : option Z) : bool :=
  match o with Some n => negb (n =? 0)%Z | None => false end.

(** [a or b] where [a] is an [Optional[int]] and [b] an [int] *)
Definition or_int (a : option Z) (b : Z) : Z :=
  match a with
  | Some n => if (n =? 0)%Z then b else n
  | None => b
  end.

(** [v or 'latest'] *)
Definition or_latest (version : option string) : string :=
  match version with
  | Some v => if truthy_str v then v else "latest"
  | None => "latest"
  end.

(** [c.upper()] on one ASCII character *)
Definition upper_ascii (c : ascii) : ascii :=
  let n := nat_of_ascii c in
  if (Nat.leb 97 n && Nat.leb n 122)%bool then ascii_of_nat (n - 32) else c.

(** [s.upper()] *)
Fixpoint upper (s : string) : string :=
  match s with
  | EmptyString => EmptyString
  | String c r => String (upper_ascii c) (upper r)
  end.

(** The newline character. *)
Definition nl : string := String (ascii_of_nat 10) EmptyString.

(** ["\n".join(f"  - {e}" for e in errors)] *)
Fixpoint bullet_lines (errors : list string) : string :=
  match errors with
  | nil => EmptyString
  | e :: nil => String.append "  - " e
  | e :: rest =>
      String.append (String.append "  - " e) (String.append nl (bullet_lines rest))
  end.

End PyStr.

(** ** core/exceptions.py *)

Module Exceptions.

Inductive exc_class : Type :=
  (* builtins *)
  | Exception | LookupError | KeyError | IndexError | ValueError
  | AttributeError | TypeError | OSError | BuiltinFileNotFoundError
  (* an exception class of a third-party library (the OpenAI client) *)
  | ExternalError
  (* the package's own hierarchy *)
  | PromptManagerError | ConfigurationError | ValidationError
  | SourceError | SourceNotFoundError | SourceConnectionError
  | PromptError | PromptNotFoundError | PromptRetrievalError
  | RegistryError | PromptAlreadyRegisteredError | PromptNotRegisteredError
  | OpenAIError | OpenAIConfigError | OpenAIRateLimitError | OpenAITimeoutError
  | LocalSourceError | FileNotFoundError | FileReadError.

#[global] Instance exc_class_eq_dec : EqDecision exc_class.
Proof. solve_decision. Defined.

(** The classes named in each [class X(...)] header. *)
Definition bases (c : exc_class) : list exc_class :=
  match c with
  | Exception => []
  | LookupError | ValueError | AttributeError | TypeError | OSError
  | ExternalError => [Exception]
  | KeyError | IndexError => [LookupError]
  | BuiltinFileNotFoundError => [OSError]
  | PromptManagerError => [Exception]
  | ConfigurationError | ValidationError | SourceError | PromptError
  | RegistryError => [PromptManagerError]
  | SourceNotFoundError | SourceConnectionError | OpenAIError
  | LocalSourceError => [SourceError]
  | PromptNotFoundError | PromptRetrievalError => [PromptError]
  | PromptAlreadyRegisteredError | PromptNotRegisteredError => [RegistryError]
  | OpenAIConfigError => [OpenAIError; ConfigurationError]
  | OpenAIRateLimitError | OpenAITimeoutError => [OpenAIError]
  | FileNotFoundError | FileReadError => [LocalSourceError]
  end.

Fixpoint issubclass_upto (depth : nat) (c d : exc_class) : bool :=
  bool_decide (c = d)
  || match depth with
     | O => false
     | S k => existsb (fun b => issubclass_upto k b d) (bases c)
     end.

(** [issubclass(c, d)]; the hierarchy is five levels deep. *)
Definition issubclass : exc_class -> exc_class -> bool := issubclass_upto 5.

(** A raised exception: its class and [str(e)]. *)
Record exn : Type := mk_exn { exn_class : exc_class; str : string }.

Definition isinstance (e : exn) (c : exc_class) : bool :=
  issubclass (exn_class e) c.

(** [PromptNotFoundError(prompt_name, source, details)] *)
Definition mk_PromptNotFoundError
    (prompt_name : string) (source details : option string) : exn :=
  let message := "Prompt '" +:+ prompt_name +:+ "' not found" in
  let message :=
    match source with
    | Some s => if PyStr.truthy_str s
                then message +:+ " in source '" +:+ s +:+ "'" else message
    | None => message
    end in
  let message :=
    match details with
    | Some d => if PyStr.truthy_str d then message +:+ ": " +:+ d else message
    | None => message
    end in
  mk_exn PromptNotFoundError message.

(** [PromptRetrievalError(prompt_name, source, original_error)] *)
Definition mk_PromptRetrievalError
    (prompt_name source : string) (original_error : exn) : exn :=
  mk_exn PromptRetrievalError
    ("Failed to retrieve prompt '" +:+ prompt_name +:+ "' from source '"
       +:+ source +:+ "': " +:+ str original_error).

Definition mk_PromptAlreadyRegisteredError (prompt_name : string) : exn :=
  mk_exn PromptAlreadyRegisteredError
    ("Prompt '" +:+ prompt_name +:+ "' is already registered").

Definition mk_PromptNotRegisteredError (prompt_name : string) : exn :=
  mk_exn PromptNotRegisteredError
    ("Prompt '" +:+ prompt_name +:+ "' is not registered").

(** [FileReadError(file_path, original_error)] *)
Definition mk_FileReadError (file_path : string) (original_error : exn) : exn :=
  mk_exn FileReadError
    ("Failed to read prompt file '" +:+ file_path +:+ "': "
       +:+ str original_error).

End Exceptions.
Export Exceptions.

(** ** Results of calls *)

Inductive outcome (A : Type) : Type :=
  | Return (v : A)
  | Raise (e : exn)
  | Beyond.
Arguments Return {A} v.
Arguments Raise {A} e.
Arguments Beyond {A}.

(** ** [str.format] with keyword arguments

    The manager and the local adapter substitute variables with
    [content.format], passing the variables as keyword arguments.  The
    method belongs to CPython; what is
    modelled is its scan of the format string, one character at a time and
    left to right, for replacement fields that are plain names and keyword
    arguments whose values are strings (a string formats as itself):
    - [{{] and [}}] stand for one brace; a lone [}] or an unclosed [{] raises
      [ValueError];
    - [{name}] looks [name] up in the keyword arguments and raises [KeyError]
      when it is absent; [{}] and [{0}] ask for a positional argument, and
      there is none, so they raise [IndexError];
    - a field with a conversion, a format spec, an attribute or an index
      (one of [! : . [ ]] or a nested brace) is outside the model: [FmtBeyond].
    The first problem met from the left decides the result, as in CPython,
    which renders as it scans. *)

Module PyFormat.

Inductive fmt_result : Type :=
  | FmtOk (s : string)
  | FmtKeyError (key : string)
  | FmtIndexError
  | FmtValueError
  | FmtBeyond.

Definition is_digit (c : ascii) : bool :=
  let n := nat_of_ascii c in (Nat.leb 48 n && Nat.leb n 57)%bool.

(** Characters that keep a field a plain name. *)
Definition plain_char (c : ascii) : bool :=
  negb (Ascii.eqb c "{" || Ascii.eqb c "!" || Ascii.eqb c ":"
        || Ascii.eqb c "." || Ascii.eqb c "[" || Ascii.eqb c "]")%char.

Fixpoint all_chars (p : ascii -> bool) (s : string) : bool :=
  match s with
  | EmptyString => true
  | String c r => p c && all_chars p r
  end.

(** The value of the field whose text (between the braces) is [field]. *)
Definition lookup_field (kwargs : gmap string string) (field : string)
  : fmt_result :=
  if negb (all_chars plain_char field) then FmtBeyond
  else if negb (PyStr.truthy_str field) then FmtIndexError
  else if all_chars is_digit field then
    (if Nat.leb (String.length field) 18 then FmtIndexError else FmtBeyond)
  else match kwargs !! field with
       | Some v => FmtOk v
       | None => FmtKeyError field
       end.

(** Where the scan stands. *)
Inductive scan_state : Type :=
  | InText                    (* literal text *)
  | SawOpen                   (* a [{] was just read in literal text *)
  | SawClose                  (* a [}] was just read in literal text *)
  | InField (field : string). (* inside a replacement field *)

Definition emit (out : string) (r : fmt_result) : fmt_result :=
  match r with
  | FmtOk s => FmtOk (out +:+ s)
  | other => other
  end.

Fixpoint scan (kwargs : gmap string string) (st : scan_state) (s : string)
  : fmt_result :=
  match s with
  | EmptyString =>
      match st with
      | InText => FmtOk ""
      | SawOpen | SawClose | InField _ => FmtValueError
      end
  | String c r =>
      match st with
      | InText =>
          if Ascii.eqb c "{" then scan kwargs SawOpen r
          else if Ascii.eqb c "}" then scan kwargs SawClose r
          else emit (String c "") (scan kwargs InText r)
      | SawOpen =>
          if Ascii.eqb c "{" then emit "{" (scan kwargs InText r)
          else if Ascii.eqb c "}" then
            match lookup_field kwargs "" with
            | FmtOk v => emit v (scan kwargs InText r)
            | other => other
            end
          else scan kwargs (InField (String c "")) r
      | SawClose =>
          if Ascii.eqb c "}" then emit "}" (scan kwargs InText r)
          else FmtValueError
      | InField field =>
          if Ascii.eqb c "}" then
            match lookup_field kwargs field with
            | FmtOk v => emit v (scan kwargs InText r)
            | other => other
            end
          else scan kwargs (InField (field +:+ String c "")) r
      end
  end.

(** [content.format] with the keyword arguments [kwargs] *)
Definition format (content : string) (kwargs : gmap string string)
  : fmt_result :=
  scan kwargs InText content.

(** The exception a failed [format] raises. *)
Definition exn_of (r : fmt_result) : option exn :=
  match r with
  | FmtKeyError key => Some (mk_exn KeyError ("'" +:+ key +:+ "'"))
  | FmtIndexError =>
      Some (mk_exn IndexError
              "Replacement index 0 out of range for positional args tuple")
  | FmtValueError => Some (mk_exn ValueError "invalid format string")
  | FmtOk _ | FmtBeyond => None
  end.

End PyFormat.

(** ** core/config.py *)

Module Config.

Inductive SourceType : Type := OPENAI | LOCAL.

#[global] Instance SourceType_eq_dec : EqDecision SourceType.
Proof. solve_decision. Defined.

#[global] Instance SourceType_countable : Countable SourceType.
Proof.
  refine (inj_countable'
            (fun s => match s with OPENAI => true | LOCAL => false end)
            (fun b : bool => if b then OPENAI else LOCAL) _).
  by intros [].
Defined.

Module SourceType_.
(** [SourceType.value] *)
Definition value (s : SourceType) : string :=
  match s with OPENAI => "openai" | LOCAL => "local" end.

(** [SourceType.from_string(value)] *)
Definition from_string (v : string) : outcome SourceType :=
  let l := PyStr.lower v in
  if String.eqb l "openai" then Return OPENAI
  else if String.eqb l "local" then Return LOCAL
  else Raise (mk_exn ConfigurationError
                ("Invalid source type '" +:+ v
                   +:+ "'. Valid types are: openai, local")).
End SourceType_.

Inductive ValidationMode : Type := NONE | ENV_ONLY | LOAD_TEST.

Module ValidationMode_.
(** [ValidationMode.value] *)
Definition value (m : ValidationMode) : string :=
  match m with NONE => "none" | ENV_ONLY => "env_only" | LOAD_TEST => "load_test" end.

(** [ValidationMode.from_string(value)] *)
Definition from_string (v : string) : outcome ValidationMode :=
  let l := PyStr.lower v in
  if String.eqb l "none" then Return NONE
  else if String.eqb l "env_only" then Return ENV_ONLY
  else if String.eqb l "load_test" then Return LOAD_TEST
  else Raise (mk_exn ConfigurationError
                ("Invalid validation mode '" +:+ v
                   +:+ "'. Valid modes are: none, env_only, load_test")).
End ValidationMode_.

(** [class PromptConfig]; the values of [source_config] that the code
    reads ([prompt_id], [version], [path]) are strings. *)
Module PromptConfig.
Record t : Type := mk {
  name : string;
  source : SourceType;
  source_config : gmap string string;
  cache_ttl : option Z
}.

(** [PromptConfig(name=..., source=<str>, ...)]: the [source] validator
    turns the string into a [SourceType] or raises. *)
Definition new (name source : string) (source_config : gmap string string)
    (cache_ttl : option Z) : outcome t :=
  match SourceType_.from_string source with
  | Return st => Return (mk name st source_config cache_ttl)
  | Raise e => Raise e
  | Beyond => Beyond
  end.
End PromptConfig.

(** [class PromptManagerConfig] *)
Module PromptManagerConfig.
Record t : Type := mk {
  default_source : option SourceType;
  cache_enabled : bool;
  cache_ttl : Z;
  validate_on_startup : ValidationMode;
  openai_api_key : option string;
  openai_timeout : Z;
  openai_max_retries : Z;
  prompts_dir : option string;
  prompts : gmap string PromptConfig.t
}.

(** The errors [validate_sources] reports for one entry of [prompts]. *)
Definition prompt_source_errors (has_openai has_local : bool)
    (name : string) (prompt_config : PromptConfig.t) : list string :=
  match PromptConfig.source prompt_config with
  | OPENAI =>
      (if negb has_openai then
         ["Prompt '" +:+ name
            +:+ "' uses OpenAI source but PROMPT_MANAGER_OPENAI_API_KEY is not set"]
       else [])
      ++ (if bool_decide (is_Some (PromptConfig.source_config prompt_config !! "prompt_id"))
          then []
          else ["Prompt '" +:+ name
                  +:+ "' uses OpenAI source but no prompt ID configured. "
                  +:+ "Set PROMPT_" +:+ PyStr.upper name
                  +:+ "_ID environment variable."])
  | LOCAL =>
      (if negb has_local then
         ["Prompt '" +:+ name
            +:+ "' uses local source but PROMPT_MANAGER_PROMPTS_DIR is not set"]
       else [])
      ++ (if bool_decide (is_Some (PromptConfig.source_config prompt_config !! "path"))
          then []
          else ["Prompt '" +:+ name
                  +:+ "' uses local source but no path configured. "
                  +:+ "Set PROMPT_" +:+ PyStr.upper name
                  +:+ "_PATH environment variable."])
  end.

(** [validate_sources()].  The entries of [prompts] are visited in the
    order of [map_to_list], which need not be the dict's insertion order. *)
Definition validate_sources (c : t) : list string :=
  let has_openai := PyStr.truthy_ostr (openai_api_key c) in
  let has_local := PyStr.truthy_ostr (prompts_dir c) in
  (if negb (has_openai || has_local) then
     ["No prompt sources configured. Set either PROMPT_MANAGER_OPENAI_API_KEY "
        +:+ "or PROMPT_MANAGER_PROMPTS_DIR environment variables."]
   else [])
  ++ concat ((fun kv => prompt_source_errors has_openai has_local kv.1 kv.2)
               <$> map_to_list (prompts c)).

(** [validate(mode)]; an enum member is truthy, so [mode or default] is
    the default only when no mode is passed. *)
Definition validate (c : t) (mode : option ValidationMode) : outcome unit :=
  match default (validate_on_startup c) mode with
  | NONE => Return tt
  | _ =>
      match validate_sources c with
      | [] => Return tt
      | errors =>
          Raise (mk_exn ValidationError
                   ("Configuration validation failed:" +:+ PyStr.nl
                      +:+ PyStr.bullet_lines errors))
      end
  end.
End PromptManagerConfig.

End Config.
Export Config.

(** ** core/registry.py *)

Module PromptRegistry.

Record t : Type := mk {
  _prompts : gmap string PromptConfig.t;
  _sources_in_use : gset SourceType
}.

(** [PromptRegistry()] *)
Definition init : t := mk ∅ ∅.

(** [register(prompt_config, overwrite)] *)
Definition register (r : t) (prompt_config : PromptConfig.t) (overwrite : bool)
  : outcome unit * t :=
  if bool_decide (is_Some (_prompts r !! PromptConfig.name prompt_config))
     && negb overwrite
  then (Raise (mk_PromptAlreadyRegisteredError
                 (PromptConfig.name prompt_config)), r)
  else (Return tt,
        mk (<[PromptConfig.name prompt_config := prompt_config]> (_prompts r))
           ({[PromptConfig.source prompt_config]} ∪ _sources_in_use r)).

(** [register_from_dict(name, source, source_config, cache_ttl, overwrite)]:
    whatever the body raises is re-raised as a [ConfigurationError]. *)
Definition register_from_dict (r : t) (name source : string)
    (source_config : option (gmap string string)) (cache_ttl : option Z)
    (overwrite : bool) : outcome unit * t :=
  let wrap (e : exn) :=
    mk_exn ConfigurationError
      ("Failed to register prompt '" +:+ name +:+ "': " +:+ str e) in
  match PromptConfig.new name source (default ∅ source_config) cache_ttl with
  | Return config =>
      match register r config overwrite with
      | (Return tt, r') => (Return tt, r')
      | (Raise e, r') => (Raise (wrap e), r')
      | (Beyond, r') => (Beyond, r')
      end
  | Raise e => (Raise (wrap e), r)
  | Beyond => (Beyond, r)
  end.

(** [get(name)] *)
Definition get (r : t) (name : string) : outcome PromptConfig.t :=
  match _prompts r !! name with
  | Some c => Return c
  | None => Raise (mk_PromptNotRegisteredError name)
  end.

(** [exists(name)] *)
Definition exists_ (r : t) (name : string) : bool :=
  bool_decide (is_Some (_prompts r !! name)).

(** [_update_sources_in_use()] *)
Definition _update_sources_in_use (r : t) : t :=
  mk (_prompts r)
     (list_to_set ((fun kv => PromptConfig.source kv.2)
                     <$> map_to_list (_prompts r))).

(** [remove(name)] *)
Definition remove (r : t) (name : string) : outcome unit * t :=
  match _prompts r !! name with
  | None => (Raise (mk_PromptNotRegisteredError name), r)
  | Some _ =>
      (Return tt,
       _update_sources_in_use (mk (delete name (_prompts r)) (_sources_in_use r)))
  end.

(** [clear()] *)
Definition clear (r : t) : t := mk ∅ ∅.

(** [get_sources_in_use()] *)
Definition get_sources_in_use (r : t) : gset SourceType := _sources_in_use r.


(** [list_prompts()]; the names come in the order of [map_to_list], which
    need not be the dict's insertion order. *)
Definition list_prompts (r : t) : list string := (map_to_list (_prompts r)).*1.

(** [len(registry)] *)
Definition len (r : t) : nat := size (_prompts r).

(** The error [validate_prompts] reports for one entry, if any. *)
Definition prompt_error (source_type : option SourceType) (name : string)
    (config : PromptConfig.t) : option string :=
  let skipped :=
    match source_type with
    | Some st => negb (bool_decide (PromptConfig.source config = st))
    | None => false
    end in
  if skipped then None
  else
    match PromptConfig.source config with
    | OPENAI =>
        if bool_decide (is_Some (PromptConfig.source_config config !! "prompt_id"))
        then None
        else Some ("Prompt '" +:+ name +:+ "': OpenAI source requires 'prompt_id' "
                     +:+ "in source configuration")
    | LOCAL => None
    end.

(** [validate_prompts(source_type)], entries visited in the order of
    [map_to_list]. *)
Definition validate_prompts (r : t) (source_type : option SourceType)
  : list string :=
  omap (fun kv => prompt_error source_type kv.1 kv.2) (map_to_list (_prompts r)).
End PromptRegistry.

(** ** The world outside the process *)

Module Env.

(** What a run does to the outside, in the order it happens. *)
Inductive event : Type :=
  | EvSleep (seconds : Z)                       (* [time.sleep(seconds)] *)
  | EvApiCall (prompt_id : string) (version : option string) (timeout : Z)
                                                 (* [responses.create(...)] *)
  | EvFileRead (path : string).                  (* [open(path).read()] *)

(** The shapes of an API response that [_extract_prompt_text] probes;
    [None] stands for an attribute the object does not have. *)
Record content_item : Type := { ci_text : option string }.
Record instruction : Type := { ins_content : option (list content_item) }.
Record response : Type := {
  instructions : option (list instruction);
  content : option string;
  text : option string
}.

Inductive call_outcome : Type :=
  | CallReturns (r : response)
  | CallRaises (e : exn).

(** [pathlib] and the disk, as the local adapter uses them.  Paths are the
    strings [str(path)] gives. *)
Record FileSystem : Type := {
  expanduser : string -> string;
  is_absolute : string -> bool;
  join : string -> string -> string;          (* [a / b] *)
  resolve : string -> string;
  stem : string -> string;
  suffix : string -> string;
  parent : string -> string;
  name : string -> string;
  with_suffix : string -> string -> string;
  path_exists : string -> bool;
  is_dir : string -> bool;
  (** [open(path).read()] followed by the decoding [_read_file] does for the
      file's extension (JSON, YAML, or stripped plain text) *)
  read_and_decode : string -> outcome string;
  (** [path.stat().st_mtime]; [None] when [stat] fails *)
  st_mtime : string -> option Z;
  (** the order in which the set [SUPPORTED_EXTENSIONS] is iterated *)
  supported_extensions : list string
}.

Record World : Type := mkWorld {
  now : Z;                                      (* [time.time()] *)
  trace : list event;
  api_calls : nat;                              (* calls made so far *)
  (** the answer of the n-th call of [responses.create] *)
  api : nat -> string -> option string -> call_outcome;
  HAS_OPENAI : bool;
  (** [OpenAI(api_key=...)]: the exception it raises, if any *)
  client_ctor : string -> option exn;
  fs : FileSystem
}.

Definition record (ev : event) (w : World) : World :=
  mkWorld (now w) (trace w ++ [ev]) (api_calls w) (api w) (HAS_OPENAI w)
          (client_ctor w) (fs w).

(** [time.sleep(seconds)] *)
Definition sleep (seconds : Z) (w : World) : World :=
  mkWorld (now w + seconds) (trace w ++ [EvSleep seconds]) (api_calls w)
          (api w) (HAS_OPENAI w) (client_ctor w) (fs w).

(** Time passing between two calls of the program. *)
Definition tick (seconds : Z) (w : World) : World :=
  mkWorld (now w + seconds) (trace w) (api_calls w) (api w) (HAS_OPENAI w)
          (client_ctor w) (fs w).

(** [self._client.responses.create(prompt=..., timeout=timeout)] *)
Definition responses_create (prompt_id : string) (version : option string)
    (timeout : Z) (w : World) : call_outcome * World :=
  (api w (api_calls w) prompt_id version,
   mkWorld (now w) (trace w ++ [EvApiCall prompt_id version timeout])
           (S (api_calls w)) (api w) (HAS_OPENAI w) (client_ctor w) (fs w)).

(** The sleeps of a trace, in order. *)
Definition sleeps (tr : list event) : list Z :=
  omap (fun ev => match ev with EvSleep n => Some n | _ => None end) tr.

(** The number of I/O events (API calls and file reads) of a trace. *)
Definition is_fetch (ev : event) : bool :=
  match ev with EvSleep _ => false | _ => true end.

Definition fetches (tr : list event) : nat :=
  length (List.filter is_fetch tr).

End Env.
Export Env.

(** ** sources/openai.py *)

Module OpenAIPromptSource.

(** The adapter's [config] dict; [None] is a key the dict does not have,
    except for [api_key], where it also stands for the value [None]. *)
Record config_t : Type := mk_config {
  api_key : option string;
  timeout : option Z;
  max_retries : option Z
}.

Record t : Type := mk {
  config : config_t;
  _initialized : bool;
  _client : option string;          (* the client, named by the key it holds *)
  _cache : gmap string string
}.

(** [OpenAIPromptSource(config)] *)
Definition new (config : config_t) : t := mk config false None ∅.

Definition source_type : string := "openai".

(** [initialize()] *)
Definition initialize (s : t) (w : World) : outcome unit * t :=
  if negb (HAS_OPENAI w) then
    (Raise (mk_exn ConfigurationError
              "OpenAI library not installed. Install with: pip install openai"),
     s)
  else
    match api_key (config s) with
    | Some key =>
        if PyStr.truthy_str key then
          match client_ctor w key with
          | None => (Return tt, mk (config s) (_initialized s) (Some key) (_cache s))
          | Some e =>
              (Raise (mk_exn SourceConnectionError
                        ("Failed to initialize OpenAI client: " +:+ str e)), s)
          end
        else
          (Raise (mk_exn OpenAIConfigError
                    ("OpenAI API key not configured. Set PROMPT_MANAGER_OPENAI_API_KEY "
                       +:+ "environment variable.")), s)
    | None =>
        (Raise (mk_exn OpenAIConfigError
                  ("OpenAI API key not configured. Set PROMPT_MANAGER_OPENAI_API_KEY "
                     +:+ "environment variable.")), s)
    end.

(** [_ensure_initialized()] (sources/base.py) *)
Definition _ensure_initialized (s : t) (w : World) : outcome unit * t :=
  if _initialized s then (Return tt, s)
  else
    match initialize s w with
    | (Return tt, s') => (Return tt, mk (config s') true (_client s') (_cache s'))
    | other => other
    end.

(** [_extract_prompt_text(response)] *)
Definition _extract_prompt_text (r : response) : string + exn :=
  let nested :=
    match instructions r with
    | Some (i0 :: _) =>
        match ins_content i0 with
        | Some (c0 :: _) => ci_text c0
        | _ => None
        end
    | _ => None
    end in
  match nested with
  | Some t => inl t
  | None =>
      match content r with
      | Some c => inl c
      | None =>
          match text r with
          | Some t => inl t
          | None =>
              (* [ValueError("Unexpected response structure")], caught below it *)
              inr (mk_PromptRetrievalError "unknown" source_type
                       (mk_exn Exception
                          ("Failed to parse OpenAI response: "
                             +:+ "Unexpected response structure")))
          end
      end
  end.

(** The body of the [try] in the retry loop: the text, or the exception
    that reaches the [except] clause. *)
Definition attempt_body (prompt_id : string) (version : option string)
    (timeout : Z) (w : World) : (string + exn) * World :=
  let v := if PyStr.truthy_ostr version then version else None in
  match responses_create prompt_id v timeout w with
  | (CallRaises e, w') => (inr e, w')
  | (CallReturns r, w') =>
      match _extract_prompt_text r with
      | inl prompt_text =>
          if negb (PyStr.truthy_str prompt_text) then
            (inr (mk_PromptNotFoundError prompt_id (Some source_type)
                    (Some "Prompt retrieved but content is empty")), w')
          else (inl prompt_text, w')
      | inr e => (inr e, w')
      end
  end.

(** How the [except] clause reads the failure's message. *)
Inductive failure_class : Type :=
  | NotFoundFailure | RateLimitFailure | TimeoutFailure | GenericFailure.

Definition classify (e : exn) : failure_class :=
  let error_str := PyStr.lower (str e) in
  if PyStr.contains "not found" error_str || PyStr.contains "404" error_str
  then NotFoundFailure
  else if PyStr.contains "rate limit" error_str
          || PyStr.contains "too many requests" error_str
  then RateLimitFailure
  else if PyStr.contains "timeout" error_str then TimeoutFailure
  else GenericFailure.

(** [for attempt in range(max_retries): ...], entered at [attempt] with
    [remaining] iterations to go; falling out of the loop returns [None]. *)
Fixpoint retry_loop (prompt_id : string) (version : option string)
    (cache_key : string) (max_retries timeout : Z)
    (remaining : nat) (attempt : Z) (s : t) (w : World)
  : outcome (option string) * t * World :=
  match remaining with
  | O => (Return None, s, w)
  | S k =>
      match attempt_body prompt_id version timeout w with
      | (inl prompt_text, w') =>
          (Return (Some prompt_text),
           mk (config s) (_initialized s) (_client s)
              (<[cache_key := prompt_text]> (_cache s)),
           w')
      | (inr e, w') =>
          match classify e with
          | NotFoundFailure =>
              (Raise (mk_PromptNotFoundError prompt_id (Some source_type)
                        (Some "Prompt ID may be invalid or inaccessible")),
               s, w')
          | RateLimitFailure =>
              if attempt <? max_retries - 1 then
                let wait_time := 2 ^ attempt in
                retry_loop prompt_id version cache_key max_retries timeout
                  k (attempt + 1) s (sleep wait_time w')
              else
                (Raise (mk_exn OpenAIRateLimitError
                          ("Rate limit exceeded after " +:+ pretty max_retries
                             +:+ " attempts")), s, w')
          | TimeoutFailure =>
              if attempt <? max_retries - 1 then
                retry_loop prompt_id version cache_key max_retries timeout
                  k (attempt + 1) s w'
              else
                (Raise (mk_exn OpenAITimeoutError
                          ("Request timed out after " +:+ pretty max_retries
                             +:+ " attempts")), s, w')
          | GenericFailure =>
              if attempt <? max_retries - 1 then
                retry_loop prompt_id version cache_key max_retries timeout
                  k (attempt + 1) s (sleep 1 w')
              else
                (Raise (mk_PromptRetrievalError prompt_id source_type e), s, w')
          end
      end
  end.

(** [get_prompt(prompt_id, version, **kwargs)]; the extra keyword
    arguments are ignored.  The result is a string or Python's [None]. *)
Definition get_prompt (s : t) (w : World) (prompt_id : string)
    (version : option string) : outcome (option string) * t * World :=
  match _ensure_initialized s w with
  | (Return tt, s1) =>
      let cache_key := prompt_id +:+ ":" +:+ PyStr.or_latest version in
      match _cache s1 !! cache_key with
      | Some cached => (Return (Some cached), s1, w)
      | None =>
          let max_retries := default 3 (max_retries (config s1)) in
          let timeout := default 30 (timeout (config s1)) in
          retry_loop prompt_id version cache_key max_retries timeout
            (Z.to_nat max_retries) 0 s1 w
      end
  | (Raise e, s1) => (Raise e, s1, w)
  | (Beyond, s1) => (Beyond, s1, w)
  end.


(** [validate_prompt_exists(prompt_id, version)]: whatever [get_prompt]
    raises is turned into [False]. *)
Definition validate_prompt_exists (s : t) (w : World) (prompt_id : string)
    (version : option string) : outcome bool * t * World :=
  match get_prompt s w prompt_id version with
  | (Return _, s', w') => (Return true, s', w')
  | (Raise _, s', w') => (Return false, s', w')
  | (Beyond, s', w') => (Beyond, s', w')
  end.
End OpenAIPromptSource.

(** ** sources/local.py *)

Module LocalFileSource.

(** The value bound to the keyword [variables] of [get_prompt]. *)
Inductive variables_arg : Type :=
  | NoVariables                               (* the keyword is not passed *)
  | VarsDict (d : gmap string string)
  | VarsStr (s : string).                     (* a string where a dict is expected *)

(** The adapter's [config] dict. *)
Record config_t : Type := mk_config {
  base_dir : option string;
  encoding : string;
  auto_reload : bool
}.

Record t : Type := mk {
  config : config_t;
  _initialized : bool;
  _base_dir : option string;
  _auto_reload : bool;
  _cache : gmap string string;
  _file_mtimes : gmap string Z
}.

(** [LocalFileSource(config)] *)
Definition new (config : config_t) : t :=
  mk config false None (auto_reload config) ∅ ∅.

Definition source_type : string := "local".

(** [initialize()] *)
Definition initialize (s : t) (w : World) : outcome unit * t :=
  match base_dir (config s) with
  | Some dir =>
      if PyStr.truthy_str dir then
        let d := resolve (fs w) (expanduser (fs w) dir) in
        let s' := mk (config s) (_initialized s) (Some d) (_auto_reload s)
                     (_cache s) (_file_mtimes s) in
        if negb (path_exists (fs w) d) then
          (Raise (mk_exn ConfigurationError
                    ("Prompts directory does not exist: " +:+ d)), s')
        else if negb (is_dir (fs w) d) then
          (Raise (mk_exn ConfigurationError
                    ("Prompts path is not a directory: " +:+ d)), s')
        else (Return tt, s')
      else (Return tt, s)
  | None => (Return tt, s)
  end.

(** [_ensure_initialized()] (sources/base.py) *)
Definition _ensure_initialized (s : t) (w : World) : outcome unit * t :=
  if _initialized s then (Return tt, s)
  else
    match initialize s w with
    | (Return tt, s') =>
        (Return tt, mk (config s') true (_base_dir s') (_auto_reload s')
                       (_cache s') (_file_mtimes s'))
    | other => other
    end.

(** [_resolve_file_path(prompt_id, version, override_path)] *)
Definition _resolve_file_path (s : t) (w : World) (prompt_id : string)
    (version override_path : option string) : string :=
  let f := fs w in
  if PyStr.truthy_ostr override_path then
    let path := expanduser f (default "" override_path) in
    match _base_dir s with
    | Some b => if negb (is_absolute f path) then resolve f (join f b path)
                else resolve f path
    | None => resolve f path
    end
  else
    let base_path := prompt_id in
    let file_path :=
      if is_absolute f base_path then resolve f (expanduser f base_path)
      else match _base_dir s with
           | Some b => resolve f (join f b base_path)
           | None => resolve f base_path
           end in
    let unversioned :=
      if negb (PyStr.truthy_str (suffix f file_path)) then
        match List.find (fun ext => path_exists f (with_suffix f file_path ext))
                        (supported_extensions f) with
        | Some ext => with_suffix f file_path ext
        | None => file_path
        end
      else file_path in
    match version with
    | Some v =>
        if PyStr.truthy_str v then
          let versioned_name := stem f file_path +:+ "." +:+ v +:+ suffix f file_path in
          let versioned_path := join f (parent f file_path) versioned_name in
          if path_exists f versioned_path then versioned_path
          else
            let version_dir := join f (join f (parent f file_path) v) (name f file_path) in
            if path_exists f version_dir then version_dir else unversioned
        else unversioned
    | None => unversioned
    end.

(** [_read_file(file_path)] *)
Definition _read_file (w : World) (file_path : string) : outcome string * World :=
  if negb (path_exists (fs w) file_path) then
    (Raise (mk_exn BuiltinFileNotFoundError file_path), w)
  else
    let w' := record (EvFileRead file_path) w in
    match read_and_decode (fs w) file_path with
    | Return c => (Return c, w')
    | Raise e => (Raise (mk_FileReadError file_path e), w')
    | Beyond => (Beyond, w')
    end.

(** [_substitute_variables(content, variables)] *)
Definition _substitute_variables (content : string) (variables : variables_arg)
  : outcome string :=
  match variables with
  | VarsDict d =>
      match PyFormat.format content d with
      | PyFormat.FmtOk s => Return s
      | PyFormat.FmtKeyError _ => Return content
      | PyFormat.FmtBeyond => Beyond
      | other =>
          match PyFormat.exn_of other with
          | Some e => Raise e
          | None => Beyond
          end
      end
  | VarsStr _ =>
      Raise (mk_exn TypeError "argument after ** must be a mapping, not str")
  | NoVariables => Return content
  end.

(** [bool(variables)] for the keyword's value *)
Definition truthy_vars (variables : variables_arg) : bool :=
  match variables with
  | NoVariables => false
  | VarsDict d => negb (bool_decide (d = ∅))
  | VarsStr s => PyStr.truthy_str s
  end.

(** [_is_file_modified(file_path)] *)
Definition _is_file_modified (s : t) (w : World) (file_path : string) : bool :=
  match _file_mtimes s !! file_path with
  | None => true
  | Some seen =>
      match st_mtime (fs w) file_path with
      | Some current_mtime => seen <? current_mtime
      | None => true
      end
  end.

(** The handlers that close the [try] of [get_prompt]. *)
Definition on_read_error (prompt_id file_path : string) (e : exn) : exn :=
  if isinstance e BuiltinFileNotFoundError then
    mk_PromptNotFoundError prompt_id (Some source_type)
      (Some ("File not found: " +:+ file_path))
  else mk_PromptRetrievalError prompt_id source_type e.

(** [get_prompt(prompt_id, version, **kwargs)], where [kwargs] may hold
    [path] and [variables]. *)
Definition get_prompt (s : t) (w : World) (prompt_id : string)
    (version path : option string) (variables : variables_arg)
  : outcome (option string) * t * World :=
  match _ensure_initialized s w with
  | (Return tt, s1) =>
      let file_path := _resolve_file_path s1 w prompt_id version path in
      let cache_key := file_path in
      let s2 :=
        if _auto_reload s1
           && bool_decide (is_Some (_cache s1 !! cache_key))
           && _is_file_modified s1 w file_path
        then mk (config s1) (_initialized s1) (_base_dir s1) (_auto_reload s1)
                (delete cache_key (_cache s1)) (_file_mtimes s1)
        else s1 in
      match (if _auto_reload s2 then None else _cache s2 !! cache_key) with
      | Some cached => (Return (Some cached), s2, w)
      | None =>
          match _read_file w file_path with
          | (Return content, w1) =>
              let substituted :=
                if truthy_vars variables
                then _substitute_variables content variables
                else Return content in
              match substituted with
              | Return content' =>
                  let s3 := mk (config s2) (_initialized s2) (_base_dir s2)
                               (_auto_reload s2)
                               (<[cache_key := content']> (_cache s2))
                               (_file_mtimes s2) in
                  if _auto_reload s3 then
                    match st_mtime (fs w1) file_path with
                    | Some m =>
                        (Return (Some content'),
                         mk (config s3) (_initialized s3) (_base_dir s3)
                            (_auto_reload s3) (_cache s3)
                            (<[cache_key := m]> (_file_mtimes s3)),
                         w1)
                    | None =>
                        (Raise (on_read_error prompt_id file_path
                                  (mk_exn BuiltinFileNotFoundError file_path)),
                         s3, w1)
                    end
                  else (Return (Some content'), s3, w1)
              | Raise e => (Raise (on_read_error prompt_id file_path e), s2, w1)
              | Beyond => (Beyond, s2, w1)
              end
          | (Raise e, w1) => (Raise (on_read_error prompt_id file_path e), s2, w1)
          | (Beyond, w1) => (Beyond, s2, w1)
          end
      end
  | (Raise e, s1) => (Raise e, s1, w)
  | (Beyond, s1) => (Beyond, s1, w)
  end.

End LocalFileSource.

(** ** core/manager.py *)

Module PromptManager.

(** [self._sources]: at most one adapter instance per source type. *)
Record sources_t : Type := mk_sources {
  openai_source : option OpenAIPromptSource.t;
  local_source : option LocalFileSource.t
}.

Record t : Type := mk {
  config : PromptManagerConfig.t;
  registry : PromptRegistry.t;
  _sources : sources_t;
  (** key to (content, timestamp); the content is whatever the adapter
      returned, a string or [None] *)
  _cache : gmap string (option string * Z)
}.

(** [_register_configured_prompts()] *)
Definition _register_configured_prompts (config : PromptManagerConfig.t)
  : outcome unit * PromptRegistry.t :=
  foldl (fun acc kv =>
           match acc with
           | (Return tt, r) => PromptRegistry.register r kv.2 false
           | failed => failed
           end)
        (Return tt, PromptRegistry.init)
        (map_to_list (PromptManagerConfig.prompts config)).

(** [PromptManager(config)] for a configuration object whose
    [validate_on_startup] is [NONE]; start-up validation is not modelled. *)
Definition new (config : PromptManagerConfig.t) : outcome t :=
  match _register_configured_prompts config with
  | (Return tt, r) =>
      match PromptManagerConfig.validate_on_startup config with
      | NONE => Return (mk config r (mk_sources None None) ∅)
      | _ => Beyond
      end
  | (Raise e, _) => Raise e
  | (Beyond, _) => Beyond
  end.

(** [_get_source_config(source_type)] for the OpenAI adapter *)
Definition _get_source_config_openai (m : t) : OpenAIPromptSource.config_t :=
  OpenAIPromptSource.mk_config
    (PromptManagerConfig.openai_api_key (config m))
    (Some (PromptManagerConfig.openai_timeout (config m)))
    (Some (PromptManagerConfig.openai_max_retries (config m))).

(** [_get_source_config(source_type)] for the local adapter *)
Definition _get_source_config_local (m : t) : LocalFileSource.config_t :=
  LocalFileSource.mk_config
    (PromptManagerConfig.prompts_dir (config m)) "utf-8" false.

(** [_get_source(source_type)]: the instance is created on first use.
    Both source types are keys of [SOURCE_CLASSES], so the lookup of the
    class never fails. *)
Definition _get_source (m : t) (source_type : SourceType) : t :=
  match source_type with
  | OPENAI =>
      match openai_source (_sources m) with
      | Some _ => m
      | None =>
          mk (config m) (registry m)
             (mk_sources
                (Some (OpenAIPromptSource.new (_get_source_config_openai m)))
                (local_source (_sources m)))
             (_cache m)
      end
  | LOCAL =>
      match local_source (_sources m) with
      | Some _ => m
      | None =>
          mk (config m) (registry m)
             (mk_sources
                (openai_source (_sources m))
                (Some (LocalFileSource.new (_get_source_config_local m))))
             (_cache m)
      end
  end.

(** [_get_cached(cache_key)]; the result is [None] on a miss and also when
    the stored content is [None]. *)
Definition _get_cached (m : t) (w : World) (cache_key : string)
  : option string * t :=
  if negb (PromptManagerConfig.cache_enabled (config m)) then (None, m)
  else
    match _cache m !! cache_key with
    | Some (content, timestamp) =>
        if (0 <? PromptManagerConfig.cache_ttl (config m))
           && (PromptManagerConfig.cache_ttl (config m) <? now w - timestamp)
        then (None, mk (config m) (registry m) (_sources m)
                       (delete cache_key (_cache m)))
        else (content, m)
    | None => (None, m)
    end.

(** [_cache_prompt(cache_key, content, ttl)] *)
Definition _cache_prompt (m : t) (w : World) (cache_key : string)
    (content : option string) (ttl : Z) : t :=
  if negb (PromptManagerConfig.cache_enabled (config m)) || (ttl =? 0) then m
  else mk (config m) (registry m) (_sources m)
          (<[cache_key := (content, now w)]> (_cache m)).

(** [bool(variables)] *)
Definition truthy_variables (variables : option (gmap string string)) : bool :=
  match variables with
  | Some d => negb (bool_decide (d = ∅))
  | None => false
  end.

(** [_apply_variables(content, variables)] *)
Definition _apply_variables (content : option string)
    (variables : option (gmap string string)) : outcome (option string) :=
  if negb (truthy_variables variables) then Return content
  else
    match content with
    | None =>
        Raise (mk_exn AttributeError
                 "'NoneType' object has no attribute 'format'")
    | Some c =>
        match PyFormat.format c (default ∅ variables) with
        | PyFormat.FmtOk s => Return (Some s)
        | PyFormat.FmtKeyError _ => Return content
        | PyFormat.FmtBeyond => Beyond
        | other =>
            match PyFormat.exn_of other with
            | Some e => Raise e
            | None => Beyond
            end
        end
    end.

(** The keyword arguments the manager hands to the adapter. *)
Record retrieval_params_t : Type := mk_params {
  params : gmap string string;
  params_variables : LocalFileSource.variables_arg
}.

(** [retrieval_params], as built between the registry lookup and the
    adapter call, before [prompt_id] is popped.  [kwargs] are the extra
    keyword arguments of [get_prompt]; Python keeps [version], [variables]
    and [default] out of them, since those are parameters by name. *)
Definition retrieval_params (prompt_config : PromptConfig.t)
    (version : option string) (variables : option (gmap string string))
    (kwargs : gmap string string) : retrieval_params_t :=
  let p0 := PromptConfig.source_config prompt_config in
  let p1 := match version with
            | Some v => if PyStr.truthy_str v then <["version" := v]> p0 else p0
            | None => p0
            end in
  let vars :=
    if truthy_variables variables
    then LocalFileSource.VarsDict (default ∅ variables)
    else match p0 !! "variables" with
         | Some s => LocalFileSource.VarsStr s
         | None => LocalFileSource.NoVariables
         end in
  mk_params (kwargs ∪ delete "variables" p1) vars.

(** [source.get_prompt(prompt_id, **retrieval_params)], dispatched on the
    adapter's class. *)
Definition source_get_prompt (m : t) (w : World) (source_type : SourceType)
    (prompt_id : string) (rp : retrieval_params_t)
  : outcome (option string) * t * World :=
  match source_type with
  | OPENAI =>
      match openai_source (_sources m) with
      | Some s =>
          match OpenAIPromptSource.get_prompt s w prompt_id (params rp !! "version") with
          | (res, s', w') =>
              (res, mk (config m) (registry m)
                       (mk_sources (Some s') (local_source (_sources m)))
                       (_cache m), w')
          end
      | None => (Beyond, m, w)
      end
  | LOCAL =>
      match local_source (_sources m) with
      | Some s =>
          match LocalFileSource.get_prompt s w prompt_id
                  (params rp !! "version") (params rp !! "path")
                  (params_variables rp) with
          | (res, s', w') =>
              (res, mk (config m) (registry m)
                       (mk_sources (openai_source (_sources m)) (Some s'))
                       (_cache m), w')
          end
      | None => (Beyond, m, w)
      end
  end.

(** The body of the outer [try] of [get_prompt]. *)
Definition get_prompt_body (m : t) (w : World) (name : string)
    (version : option string) (variables : option (gmap string string))
    (default_ : option string) (kwargs : gmap string string)
  : outcome (option string) * t * World :=
  let cache_key := name +:+ ":" +:+ PyStr.or_latest version in
  match _get_cached m w cache_key with
  | (Some cached_content, m1) =>
      (_apply_variables (Some cached_content) variables, m1, w)
  | (None, m1) =>
      match PromptRegistry.get (registry m1) name with
      | Return prompt_config =>
          let m2 := _get_source m1 (PromptConfig.source prompt_config) in
          let rp := retrieval_params prompt_config version variables kwargs in
          let prompt_id := default name (params rp !! "prompt_id") in
          let rp := mk_params (delete "prompt_id" (params rp)) (params_variables rp) in
          match source_get_prompt m2 w (PromptConfig.source prompt_config)
                  prompt_id rp with
          | (Return content, m3, w3) =>
              let m4 :=
                if PromptManagerConfig.cache_enabled (config m3) then
                  let ttl := PyStr.or_int (PromptConfig.cache_ttl prompt_config)
                               (PromptManagerConfig.cache_ttl (config m3)) in
                  _cache_prompt m3 w3 cache_key content ttl
                else m3 in
              (_apply_variables content variables, m4, w3)
          | failed => failed
          end
      | Raise e =>
          (* [except PromptNotRegisteredError] *)
          match default_ with
          | Some d => (_apply_variables (Some d) variables, m1, w)
          | None => (Raise e, m1, w)
          end
      | Beyond => (Beyond, m1, w)
      end
  end.

(** [get_prompt(name, version, variables, default, **kwargs)] *)
Definition get_prompt (m : t) (w : World) (name : string)
    (version : option string) (variables : option (gmap string string))
    (default_ : option string) (kwargs : gmap string string)
  : outcome (option string) * t * World :=
  match get_prompt_body m w name version variables default_ kwargs with
  | (Raise e, m', w') =>
      (* [except Exception as e] *)
      match default_ with
      | Some d => (_apply_variables (Some d) variables, m', w')
      | None => (Raise e, m', w')
      end
  | done => done
  end.

(** [register_prompt(name, source, source_config, cache_ttl, overwrite)] *)
Definition register_prompt (m : t) (name source : string)
    (source_config : option (gmap string string)) (cache_ttl : option Z)
    (overwrite : bool) : outcome unit * t :=
  match PromptRegistry.register_from_dict (registry m) name source
          source_config cache_ttl overwrite with
  | (res, r') => (res, mk (config m) r' (_sources m) (_cache m))
  end.

(** [clear_cache()] *)
Definition clear_cache (m : t) : t :=
  mk (config m) (registry m) (_sources m) ∅.


(** [list_prompts()] *)
Definition list_prompts (m : t) : list string :=
  PromptRegistry.list_prompts (registry m).

(** [prompt_exists(name)] *)
Definition prompt_exists (m : t) (name : string) : bool :=
  PromptRegistry.exists_ (registry m) name.

(** [validate(mode)].  In [LOAD_TEST] mode the configuration and registry
    checks are followed by [_validate_prompt_loading], which is not
    modelled: a run that reaches it is [Beyond]. *)
Definition validate (m : t) (mode : option ValidationMode) : outcome unit :=
  let mode := default (PromptManagerConfig.validate_on_startup (config m)) mode in
  match PromptManagerConfig.validate (config m) (Some mode) with
  | Return tt =>
      match PromptRegistry.validate_prompts (registry m) None with
      | [] =>
          match mode with
          | LOAD_TEST => Beyond
          | _ => Return tt
          end
      | registry_errors =>
          Raise (mk_exn ValidationError
                   ("Prompt registry validation failed:" +:+ PyStr.nl
                      +:+ PyStr.bullet_lines registry_errors))
      end
  | failed => failed
  end.
End PromptManager.

(** ** Fixtures: a small POSIX-like file system and two test worlds *)

Module Fixtures.

(** [s] cut at the last occurrence of [c]: what is before it and after it. *)
Fixpoint split_last (c : ascii) (s : string) : option (string * string) :=
  match s with
  | EmptyString => None
  | String a r =>
      match split_last c r with
      | Some (x, y) => Some (String a x, y)
      | None => if Ascii.eqb a c then Some (EmptyString, r) else None
      end
  end.

Definition posix_name (p : string) : string :=
  match split_last "/" p with Some (_, n) => n | None => p end.

Definition posix_parent (p : string) : string :=
  match split_last "/" p with
  | Some (d, _) => if PyStr.truthy_str d then d else "/"
  | None => "."
  end.

Definition posix_suffix (p : string) : string :=
  match split_last "." (posix_name p) with
  | Some (st, ext) =>
      if PyStr.truthy_str st && PyStr.truthy_str ext then "." +:+ ext else ""
  | None => ""
  end.

Definition posix_stem (p : string) : string :=
  match split_last "." (posix_name p) with
  | Some (st, ext) =>
      if PyStr.truthy_str st && PyStr.truthy_str ext then st else posix_name p
  | None => posix_name p
  end.

Definition posix_join (a b : string) : string :=
  if String.prefix "/" b then b
  else if String.eqb a "/" then a +:+ b else a +:+ "/" +:+ b.

(** A file system with the given directories and the given files, each
    file mapped to what [_read_file] decodes from it. *)
Definition posix (dirs : gset string) (files : gmap string string) : FileSystem :=
  {| expanduser := fun p => p;
     is_absolute := String.prefix "/";
     join := posix_join;
     resolve := fun p => p;
     stem := posix_stem;
     suffix := posix_suffix;
     parent := posix_parent;
     name := posix_name;
     with_suffix := fun p ext => posix_join (posix_parent p) (posix_stem p +:+ ext);
     path_exists := fun p => bool_decide (p ∈ dirs) || bool_decide (is_Some (files !! p));
     is_dir := fun p => bool_decide (p ∈ dirs);
     read_and_decode := fun p =>
       match files !! p with
       | Some c => Return c
       | None => Raise (mk_exn OSError ("cannot read " +:+ p))
       end;
     st_mtime := fun p => if bool_decide (is_Some (files !! p)) then Some 0 else None;
     supported_extensions := [".txt"; ".text"; ".json"; ".yaml"; ".yml"] |}.

(** An API response whose text sits in the flat [content] field. *)
Definition flat_response (s : string) : response :=
  {| instructions := None; content := Some s; text := None |}.

(** A world at time 0 with the OpenAI library installed, the given API
    script and the given file system. *)
Definition world (api : nat -> string -> option string -> call_outcome)
    (f : FileSystem) : World :=
  mkWorld 0 [] 0 api true (fun _ => None) f.

Definition no_files : FileSystem := posix ∅ ∅.

(** One directory, [/prompts], holding [greeting.txt]. *)
Definition greeting_fs : FileSystem :=
  posix {["/prompts"]} {["/prompts/greeting.txt" := "Hello {name}!"]}.

(** An API that answers every call with the same text. *)
Definition constant_api (s : string) : nat -> string -> option string -> call_outcome :=
  fun _ _ _ => CallReturns (flat_response s).

(** An API that fails [k] times with the message [msg], then answers [s]. *)
Definition flaky_api (k : nat) (msg s : string)
  : nat -> string -> option string -> call_outcome :=
  fun n _ _ => if Nat.ltb n k then CallRaises (mk_exn ExternalError msg)
               else CallReturns (flat_response s).

(** A manager configuration with the defaults of [PromptManagerConfig],
    start-up validation off, and the given credentials and directory. *)
Definition base_config (api_key prompts_dir : option string) : PromptManagerConfig.t :=
  PromptManagerConfig.mk None true 3600 NONE api_key 30 3 prompts_dir ∅.

(** The manager built from [cfg]; an empty one if construction fails. *)
Definition manager (cfg : PromptManagerConfig.t) : PromptManager.t :=
  match PromptManager.new cfg with
  | Return m => m
  | _ => PromptManager.mk cfg PromptRegistry.init
           (PromptManager.mk_sources None None) ∅
  end.

End Fixtures.

(** ** Vocabulary of the statements *)

(** Prompt templates: literal text and [{key}] slots. *)
Module Template.










End Template.

(** The retry loop of the OpenAI adapter, seen from outside. *)
Module Backoff.

Import OpenAIPromptSource.

(** The version actually sent: a falsy version is left out. *)
Definition sent_version (version : option string) : option string :=
  if PyStr.truthy_ostr version then version else None.

(** What the [try] body makes of the answer to one API call. *)
Definition body_result (prompt_id : string) (c : call_outcome) : string + exn :=
  match c with
  | CallRaises e => inr e
  | CallReturns r =>
      match _extract_prompt_text r with
      | inl prompt_text =>
          if negb (PyStr.truthy_str prompt_text) then
            inr (mk_PromptNotFoundError prompt_id (Some source_type)
                   (Some "Prompt retrieved but content is empty"))
          else inl prompt_text
      | inr e => inr e
      end
  end.

(** The outcome of the [i]-th attempt of a [get_prompt] that starts in [w]. *)
Definition nth_attempt (w : World) (prompt_id : string)
    (version : option string) (i : nat) : string + exn :=
  body_result prompt_id (api w (api_calls w + i)%nat prompt_id (sent_version version)).

Definition fails_as (c : failure_class) (r : string + exn) : Prop :=
  match r with
  | inr e => classify e = c
  | inl _ => False
  end.



(** The exception classes [get_prompt] raises from its retry loop. *)
Definition typed_error (e : exn) : bool :=
  bool_decide (exn_class e ∈ [PromptNotFoundError; OpenAIRateLimitError;
                              OpenAITimeoutError; PromptRetrievalError]).

End Backoff.

(** The two halves of "the derived set is the set of source types in use". *)
Module InUse.

Import PromptRegistry.

(** Every live entry's source type is in the derived set. *)
Definition live_in_use (r : t) : Prop :=
  ∀ name config, _prompts r !! name = Some config →
                 PromptConfig.source config ∈ _sources_in_use r.

(** The derived set holds nothing but source types of live entries. *)
Definition in_use_live (r : t) : Prop :=
  ∀ st, st ∈ _sources_in_use r →
        ∃ name config, _prompts r !! name = Some config
                       ∧ PromptConfig.source config = st.

End InUse.
Export InUse.

(** A call that did not raise. *)
Definition not_raised {A : Type} (o : outcome A) : Prop :=
  match o with
  | Raise _ => False
  | _ => True
  end.

(** Sequences of registry operations. *)
Module RegistryOps.

Inductive op : Type :=
  | Register (prompt_config : PromptConfig.t) (overwrite : bool)
  | Remove (name : string)
  | Clear.

(** The registry after one call; a call that raises leaves it as it was. *)
Definition apply_op (r : PromptRegistry.t) (o : op) : PromptRegistry.t :=
  match o with
  | Register c overwrite => (PromptRegistry.register r c overwrite).2
  | Remove name => (PromptRegistry.remove r name).2
  | Clear => PromptRegistry.clear r
  end.

(** The registry after a sequence of calls on a new registry. *)
Definition run (ops : list op) : PromptRegistry.t :=
  foldl apply_op PromptRegistry.init ops.

(** No call of the sequence asks to overwrite. *)
Definition never_overwrites (ops : list op) : bool :=
  forallb (fun o => match o with Register _ overwrite => negb overwrite | _ => true end)
          ops.

End RegistryOps.

(** Retries of the OpenAI adapter after failures of any retriable class. *)
Module Retry.

Import OpenAIPromptSource.

(** What the loop does between a failed attempt and the next one. *)
Definition pause (c : failure_class) (attempt : Z) : list event :=
  match c with
  | RateLimitFailure => [EvSleep (2 ^ attempt)]
  | GenericFailure => [EvSleep 1]
  | TimeoutFailure | NotFoundFailure => []
  end.

Definition retriable (c : failure_class) : bool :=
  match c with NotFoundFailure => false | _ => true end.

(** The events of failed attempts of the classes [cs], the first of them
    being attempt number [attempt]. *)
Fixpoint retry_trace (call : event) (attempt : Z) (cs : list failure_class)
  : list event :=
  match cs with
  | [] => []
  | c :: rest => call :: pause c attempt ++ retry_trace call (attempt + 1) rest
  end.

(** The world between a failed attempt and the next one. *)
Definition pause_world (c : failure_class) (attempt : Z) (w : World) : World :=
  match c with
  | RateLimitFailure => sleep (2 ^ attempt) w
  | GenericFailure => sleep 1 w
  | TimeoutFailure | NotFoundFailure => w
  end.

(** The world after those failed attempts. *)
Fixpoint retry_world (prompt_id : string) (version : option string)
    (timeout : Z) (attempt : Z) (cs : list failure_class) (w : World) : World :=
  match cs with
  | [] => w
  | c :: rest =>
      retry_world prompt_id version timeout (attempt + 1) rest
        (pause_world c attempt
           (responses_create prompt_id (Backoff.sent_version version) timeout w).2)
  end.

(** The class of the error raised when the last attempt of the budget
    fails with a retriable failure of class [c]. *)
Definition exhausted_error (c : failure_class) : exc_class :=
  match c with
  | RateLimitFailure => OpenAIRateLimitError
  | TimeoutFailure => OpenAITimeoutError
  | GenericFailure => PromptRetrievalError
  | NotFoundFailure => PromptNotFoundError
  end.

End Retry.

(** Concrete runs, named for the lemmas that evaluate them. *)
Module Scenarios.

Import Fixtures.

(** *** Registry: a name registered as local, then overwritten as OpenAI *)

Definition local_a : PromptConfig.t := PromptConfig.mk "a" LOCAL ∅ None.
Definition openai_a : PromptConfig.t := PromptConfig.mk "a" OPENAI ∅ None.

Definition registry_local : PromptRegistry.t :=
  (PromptRegistry.register PromptRegistry.init local_a false).2.

Definition registry_overwritten : PromptRegistry.t :=
  (PromptRegistry.register registry_local openai_a true).2.

(** *** Manager: the name [a] registered once *)

Definition manager_with_a : PromptManager.t :=
  (PromptManager.register_prompt
     (manager (base_config None (Some "/prompts")))
     "a" "local" None None false).2.

(** *** OpenAI-backed prompt [p] with a per-prompt TTL *)

Definition openai_manager (cache_ttl : option Z) : PromptManager.t :=
  (PromptManager.register_prompt
     (manager (base_config (Some "sk-test") None))
     "p" "openai" (Some {["prompt_id" := "abc"]}) cache_ttl false).2.

Definition hello_world : World := world (constant_api "Hello") no_files.

(** The first [get_prompt("p")], at time 0. *)
Definition first_get (cache_ttl : option Z)
  : outcome (option string) * PromptManager.t * World :=
  PromptManager.get_prompt (openai_manager cache_ttl) hello_world
    "p" None None None ∅.

(** A second [get_prompt("p")], [later] seconds after the first. *)
Definition second_get (cache_ttl : option Z) (later : Z)
  : outcome (option string) * PromptManager.t * World :=
  PromptManager.get_prompt (first_get cache_ttl).1.2
    (tick later (first_get cache_ttl).2) "p" None None None ∅.

(** *** File-backed prompt [greeting] holding ["Hello {name}!"] *)

Definition greeting_manager : PromptManager.t :=
  (PromptManager.register_prompt
     (manager (base_config None (Some "/prompts")))
     "greeting" "local" (Some {["path" := "greeting.txt"]}) None false).2.

Definition greeting_world : World := world (constant_api "") greeting_fs.

(** [get_prompt("greeting", variables={"name": "World"})] *)
Definition greet_world : outcome (option string) * PromptManager.t * World :=
  PromptManager.get_prompt greeting_manager greeting_world
    "greeting" None (Some {["name" := "World"]}) None ∅.

(** then [get_prompt("greeting", variables={"name": "Alice"})] *)
Definition greet_alice : outcome (option string) * PromptManager.t * World :=
  PromptManager.get_prompt greet_world.1.2 greet_world.2
    "greeting" None (Some {["name" := "Alice"]}) None ∅.

(** *** OpenAI-backed prompt [ai] and no API key *)

Definition keyless_manager : PromptManager.t :=
  (PromptManager.register_prompt
     (manager (base_config None None))
     "ai" "openai" (Some {["prompt_id" := "abc"]}) None false).2.


(** *** A prompt fetched, then removed from the registry *)

(** [get_prompt("greeting")], no variables. *)
Definition fetched : outcome (option string) * PromptManager.t * World :=
  PromptManager.get_prompt greeting_manager greeting_world
    "greeting" None None None ∅.

(** then [manager.registry.remove("greeting")] *)
Definition unregistered : PromptManager.t :=
  let m := fetched.1.2 in
  PromptManager.mk (PromptManager.config m)
    (PromptRegistry.remove (PromptManager.registry m) "greeting").2
    (PromptManager._sources m) (PromptManager._cache m).

(** then [get_prompt("greeting", default=d)] *)
Definition get_unregistered (d : option string)
  : outcome (option string) * PromptManager.t * World :=
  PromptManager.get_prompt unregistered fetched.2 "greeting" None None d ∅.

(** *** Two names that share one cache key *)

(** [get_prompt("greeting", version="v:latest")] *)
Definition fetched_versioned : outcome (option string) * PromptManager.t * World :=
  PromptManager.get_prompt greeting_manager greeting_world
    "greeting" (Some "v:latest") None None ∅.

(** then [get_prompt("greeting:v", default="D")], a name never registered *)
Definition get_colliding : outcome (option string) * PromptManager.t * World :=
  PromptManager.get_prompt fetched_versioned.1.2 fetched_versioned.2
    "greeting:v" None None (Some "D") ∅.

(** *** An adapter on its own, rate-limited twice before it is answered *)

Definition openai_config : OpenAIPromptSource.config_t :=
  OpenAIPromptSource.mk_config (Some "sk-test") (Some 30) (Some 3).

(** The adapter as constructed, and as it is once initialized. *)
Definition fresh_source : OpenAIPromptSource.t :=
  OpenAIPromptSource.new openai_config.

Definition ready_source : OpenAIPromptSource.t :=
  OpenAIPromptSource.mk openai_config true (Some "sk-test") ∅.

Definition flaky_world : World :=
  world (flaky_api 2 "Rate limit exceeded" "Hello") no_files.

Definition abc_call : event := EvApiCall "abc" None 30.

End Scenarios.

(** * Lemmas *)

(** ** Strings *)

Lemma append_nil_l (s : string) : "" +:+ s = s.
Proof. reflexivity. Qed.

Lemma append_cons (c : ascii) (s t : string) :
  String c s +:+ t = String c (s +:+ t).
Proof. reflexivity. Qed.


Lemma append_assoc (a b c : string) : (a +:+ b) +:+ c = a +:+ (b +:+ c).
Proof.
  induction a as [|x a IH]; [done |]. by rewrite !append_cons, IH.
Qed.

Lemma lower_append (a b : string) :
  PyStr.lower (a +:+ b) = PyStr.lower a +:+ PyStr.lower b.
Proof.
  induction a as [|x a IH]; [done |].
  rewrite append_cons. simpl. by rewrite IH, append_cons.
Qed.

Lemma prefix_append (p s : string) : String.prefix p (p +:+ s) = true.
Proof.
  induction p as [|c p IH]; [by destruct s |].
  rewrite append_cons. simpl. destruct (ascii_dec c c); [exact IH | done].
Qed.

Lemma contains_unfold (needle hay : string) :
  PyStr.contains needle hay =
    String.prefix needle hay
    || match hay with
       | EmptyString => false
       | String _ r => PyStr.contains needle r
       end.
Proof. by destruct hay. Qed.

(** [needle in (a + needle + b)] *)
Lemma contains_append (needle a b : string) :
  PyStr.contains needle (a +:+ needle +:+ b) = true.
Proof.
  induction a as [|c a IH].
  - by rewrite append_nil_l, contains_unfold, prefix_append.
  - rewrite append_cons, contains_unfold, IH. apply orb_true_r.
Qed.

(** ** [str.format] on templates *)

Section FormatTemplate.
Import PyFormat Template.
Variable kwargs : gmap string string.









End FormatTemplate.



(** ** The registry *)

Section RegistryFacts.
Import PromptRegistry.

Lemma register_duplicate (r : t) (config : PromptConfig.t) :
  is_Some (_prompts r !! PromptConfig.name config) →
  register r config false
    = (Raise (mk_PromptAlreadyRegisteredError (PromptConfig.name config)), r).
Proof. intros H. unfold register. by rewrite bool_decide_eq_true_2. Qed.

Lemma register_fresh (r : t) (config : PromptConfig.t) (overwrite : bool) :
  _prompts r !! PromptConfig.name config = None →
  (register r config overwrite).1 = Return tt
  ∧ get (register r config overwrite).2 (PromptConfig.name config) = Return config.
Proof.
  intros H. unfold register, get.
  rewrite bool_decide_eq_false_2 by (rewrite H; by intros [? ?]).
  simpl. by rewrite lookup_insert_eq.
Qed.

Lemma register_overwrite (r : t) (config : PromptConfig.t) :
  (register r config true).1 = Return tt
  ∧ get (register r config true).2 (PromptConfig.name config) = Return config.
Proof.
  unfold register, get. rewrite andb_false_r. simpl.
  by rewrite lookup_insert_eq.
Qed.

Lemma update_sources_exact (r : t) :
  live_in_use (_update_sources_in_use r) ∧ in_use_live (_update_sources_in_use r).
Proof.
  split.
  - intros name config H. simpl in *.
    apply elem_of_list_to_set, list_elem_of_fmap.
    exists (name, config). split; [done |]. by apply elem_of_map_to_list.
  - intros st H. simpl in *.
    apply elem_of_list_to_set, list_elem_of_fmap in H as ([name config] & -> & H).
    apply elem_of_map_to_list in H. by exists name, config.
Qed.

Lemma live_in_use_init : live_in_use init.
Proof. intros name config H. simpl in H. by rewrite lookup_empty in H. Qed.

Lemma live_in_use_register (r : t) (config : PromptConfig.t) (overwrite : bool) :
  live_in_use r → live_in_use (register r config overwrite).2.
Proof.
  intros Hr. unfold register.
  destruct (bool_decide _ && negb overwrite); [done |].
  intros name c H. simpl in *.
  apply lookup_insert_Some in H as [[_ <-] | [_ H]]; [set_solver |].
  apply Hr in H. set_solver.
Qed.

Lemma live_in_use_remove (r : t) (name : string) :
  live_in_use r → live_in_use (remove r name).2.
Proof.
  intros Hr. unfold remove. destruct (_prompts r !! name); [| done].
  apply update_sources_exact.
Qed.

Lemma live_in_use_clear (r : t) : live_in_use (clear r).
Proof. apply live_in_use_init. Qed.

(** A removal that succeeds leaves the derived set exact. *)
Lemma in_use_live_remove (r : t) (name : string) :
  is_Some (_prompts r !! name) → in_use_live (remove r name).2.
Proof.
  intros [c H]. unfold remove. rewrite H. apply update_sources_exact.
Qed.
End RegistryFacts.

(** C4. The derived sources-in-use set after re-registering a name with
    [overwrite=true] under another source type: the registry that held
    ["a"] as a local prompt and then as an OpenAI prompt still reports
    [LOCAL] in [get_sources_in_use()], while its only entry is an OpenAI
    one. *)
Theorem overwrite_keeps_stale_source :
  LOCAL ∈ PromptRegistry.get_sources_in_use Scenarios.registry_overwritten
  ∧ (∀ name config,
       PromptRegistry._prompts Scenarios.registry_overwritten !! name = Some config →
       PromptConfig.source config = OPENAI)
  ∧ ¬ in_use_live Scenarios.registry_overwritten.
Proof.
  assert (Hin : LOCAL ∈ PromptRegistry.get_sources_in_use
                          Scenarios.registry_overwritten).
  { apply (bool_decide_unpack _). by vm_compute. }
  assert (Hlive : ∀ name config,
             PromptRegistry._prompts Scenarios.registry_overwritten !! name
               = Some config → PromptConfig.source config = OPENAI).
  { intros name config H.
    assert (E : PromptRegistry._prompts Scenarios.registry_overwritten
                = <["a" := Scenarios.openai_a]> (<["a" := Scenarios.local_a]> ∅))
      by (by vm_compute).
    rewrite E in H.
    apply lookup_insert_Some in H as [[_ <-] | [Hne H]]; [done |].
    apply lookup_insert_Some in H as [[Heq _] | [_ H]]; [done |].
    by rewrite lookup_empty in H. }
  split; [exact Hin |]. split; [exact Hlive |].
  intros Hex. destruct (Hex LOCAL Hin) as (name & config & H & Hs).
  apply Hlive in H. congruence.
Qed.

(** ** Duplicate registration through the manager *)

Lemma register_prompt_duplicate (m : PromptManager.t) (name source : string)
    (source_config : option (gmap string string)) (cache_ttl : option Z) :
  is_Some (PromptRegistry._prompts (PromptManager.registry m) !! name) →
  ∃ e, PromptManager.register_prompt m name source source_config cache_ttl false
         = (Raise e, m)
       ∧ exn_class e = ConfigurationError.
Proof.
  intros H. unfold PromptManager.register_prompt, PromptRegistry.register_from_dict,
    PromptConfig.new.
  destruct m as [c r s ca]. simpl in *.
  destruct (SourceType_.from_string source) as [st|e|] eqn:E.
  - rewrite register_duplicate by done. eexists; split; reflexivity.
  - eexists; split; reflexivity.
  - unfold SourceType_.from_string in E. by repeat case_match.
Qed.

(** C7. Registering a name a second time through [Manager.register_prompt]
    with [overwrite=false]: the manager that already holds ["a"] rejects the
    call and keeps its state, but the exception is a [ConfigurationError]
    wrapping the registry's message, not a [PromptAlreadyRegisteredError];
    [Registry.register] itself raises [PromptAlreadyRegisteredError]. *)
Theorem register_prompt_duplicate_error_kind :
  (∃ e, PromptManager.register_prompt Scenarios.manager_with_a
          "a" "local" None None false = (Raise e, Scenarios.manager_with_a)
        ∧ exn_class e = ConfigurationError
        ∧ isinstance e PromptAlreadyRegisteredError = false
        ∧ isinstance e RegistryError = false)
  ∧ (∃ e, PromptRegistry.register
            (PromptManager.registry Scenarios.manager_with_a)
            Scenarios.local_a false
          = (Raise e, PromptManager.registry Scenarios.manager_with_a)
          ∧ exn_class e = PromptAlreadyRegisteredError).
Proof.
  split.
  - eexists. split; [by vm_compute |]. by vm_compute.
  - eexists. split; [by vm_compute |]. done.
Qed.

(** ** The manager's cache *)

Section CacheFacts.
Import PromptManager.

(** A per-prompt TTL of zero is falsy, so [or] picks the manager's TTL. *)
Lemma ttl_zero_override (manager_ttl : Z) :
  PyStr.or_int (Some 0) manager_ttl = manager_ttl.
Proof. reflexivity. Qed.

(** With caching on and a TTL other than zero, [_cache_prompt] stores. *)
Lemma cache_prompt_stores (m : t) (w : World) (cache_key : string)
    (content : option string) (ttl : Z) :
  PromptManagerConfig.cache_enabled (config m) = true → ttl ≠ 0 →
  _cache (_cache_prompt m w cache_key content ttl) !! cache_key
    = Some (content, now w).
Proof.
  intros He Ht. unfold _cache_prompt. rewrite He.
  apply Z.eqb_neq in Ht. rewrite Ht. simpl. apply lookup_insert_eq.
Qed.

(** [_get_cached] leaves the registry as it is. *)
Lemma get_cached_registry (m : t) (w : World) (cache_key : string) :
  registry (_get_cached m w cache_key).2 = registry m.
Proof. unfold _get_cached. by repeat case_match. Qed.

(** [_get_cached] never reads the registry: the per-prompt TTL of the
    entry's prompt has no part in the expiry test. *)
Lemma get_cached_ignores_registry (c : PromptManagerConfig.t)
    (r r' : PromptRegistry.t) (s : sources_t)
    (ca : gmap string (option string * Z)) (w : World) (cache_key : string) :
  (_get_cached (mk c r s ca) w cache_key).1
    = (_get_cached (mk c r' s ca) w cache_key).1.
Proof. unfold _get_cached. simpl. by repeat case_match. Qed.

(** With no entry under the key, the lookup misses and changes nothing. *)
Lemma get_cached_absent (m : t) (w : World) (cache_key : string) :
  _cache m !! cache_key = None → _get_cached m w cache_key = (None, m).
Proof. intros H. unfold _get_cached. rewrite H. by case_match. Qed.
End CacheFacts.

(** C1. A prompt registered with [cache_ttl=0] under a manager whose
    [cache_ttl] is 3600 and whose cache is enabled: the first
    [get_prompt("p")] stores the fetched content in the manager's cache
    under ["p:latest"]; ten seconds later the cache lookup hits and a
    second [get_prompt("p")] returns without any new API call. *)
Theorem zero_ttl_prompt_is_cached :
  (Scenarios.first_get (Some 0)).1.1 = Return (Some "Hello")
  ∧ PromptManager._cache (Scenarios.first_get (Some 0)).1.2 !! "p:latest"
    = Some (Some "Hello", 0)
  ∧ (PromptManager._get_cached (Scenarios.first_get (Some 0)).1.2
       (tick 10 (Scenarios.first_get (Some 0)).2) "p:latest").1 = Some "Hello"
  ∧ (Scenarios.second_get (Some 0) 10).1.1 = Return (Some "Hello")
  ∧ trace (Scenarios.second_get (Some 0) 10).2
    = trace (Scenarios.first_get (Some 0)).2
  ∧ fetches (trace (Scenarios.second_get (Some 0) 10).2) = 1%nat.
Proof. repeat split; by vm_compute. Qed.

(** C2. A file-backed prompt whose file holds ["Hello {name}!"], fetched
    with [variables={"name": "World"}]: the manager hands the variables to
    the local adapter, which substitutes them before returning, so the
    manager's cache holds ["Hello World!"] under ["greeting:latest"], not
    the file's text; a later call with [variables={"name": "Alice"}] is
    served from that entry and returns ["Hello World!"]. *)
Theorem cache_holds_substituted_content :
  Scenarios.greet_world.1.1 = Return (Some "Hello World!")
  ∧ read_and_decode Fixtures.greeting_fs "/prompts/greeting.txt"
    = Return "Hello {name}!"
  ∧ PromptManager._cache Scenarios.greet_world.1.2 !! "greeting:latest"
    = Some (Some "Hello World!", 0)
  ∧ Scenarios.greet_alice.1.1 = Return (Some "Hello World!")
  ∧ trace Scenarios.greet_alice.2 = trace Scenarios.greet_world.2.
Proof. repeat split; by vm_compute. Qed.

(** C3. A prompt registered with [cache_ttl=60] under a manager whose
    [cache_ttl] is 3600: the entry stored at time 0 is still served at
    time 100, although more than the prompt's 60 seconds have passed;
    the lookup compares the age with the manager's TTL only. *)
Theorem per_prompt_ttl_not_used_at_read :
  PyStr.or_int (Some 60) 3600 = 60
  ∧ PromptManager._cache (Scenarios.first_get (Some 60)).1.2 !! "p:latest"
    = Some (Some "Hello", 0)
  ∧ now (tick 100 (Scenarios.first_get (Some 60)).2) = 100
  ∧ (PromptManager._get_cached (Scenarios.first_get (Some 60)).1.2
       (tick 100 (Scenarios.first_get (Some 60)).2) "p:latest").1 = Some "Hello"
  ∧ (Scenarios.second_get (Some 60) 100).1.1 = Return (Some "Hello")
  ∧ trace (Scenarios.second_get (Some 60) 100).2
    = trace (Scenarios.first_get (Some 60)).2
  ∧ (PromptManager._get_cached (Scenarios.first_get (Some 60)).1.2
       (tick 3601 (Scenarios.first_get (Some 60)).2) "p:latest").1 = None.
Proof. repeat split; by vm_compute. Qed.

(** ** How the OpenAI adapter reads a failure *)

Section Classification.
Import OpenAIPromptSource Backoff.

(** A message that mentions a rate limit and neither ["not found"] nor
    ["404"] is a rate-limit failure. *)
Lemma classify_rate_limit (e : exn) :
  PyStr.contains "not found" (PyStr.lower (str e)) = false →
  PyStr.contains "404" (PyStr.lower (str e)) = false →
  PyStr.contains "rate limit" (PyStr.lower (str e))
  || PyStr.contains "too many requests" (PyStr.lower (str e)) = true →
  classify e = RateLimitFailure.
Proof. intros Hnf H404 Hrl. unfold classify. by rewrite Hnf, H404, Hrl. Qed.

(** The not-found test comes first: it wins over a rate-limit wording. *)
Lemma classify_not_found_first (e : exn) :
  PyStr.contains "not found" (PyStr.lower (str e))
  || PyStr.contains "404" (PyStr.lower (str e)) = true →
  classify e = NotFoundFailure.
Proof. intros H. unfold classify. by rewrite H. Qed.

(** An answer whose text is empty is a not-found failure, whatever the
    prompt's identifier. *)
Lemma empty_content_is_not_found (prompt_id : string) (r : response) :
  _extract_prompt_text r = inl "" →
  fails_as NotFoundFailure (body_result prompt_id (CallReturns r)).
Proof.
  intros H. unfold body_result. rewrite H. simpl.
  apply classify_not_found_first. apply orb_true_intro. left.
  unfold mk_PromptNotFoundError, source_type. cbn [str PyStr.truthy_str].
  set (tail := " in source 'openai': Prompt retrieved but content is empty").
  assert (E : (("Prompt '" +:+ prompt_id +:+ "' not found")
                 +:+ " in source '" +:+ "openai" +:+ "'")
                +:+ ": " +:+ "Prompt retrieved but content is empty"
              = ("Prompt '" +:+ prompt_id +:+ "' ") +:+ "not found" +:+ tail).
  { rewrite !append_assoc. reflexivity. }
  rewrite E, !lower_append.
  change (PyStr.lower "not found") with "not found".
  apply contains_append.
Qed.
End Classification.

(** ** The OpenAI adapter's retry loop *)

Section RetryLoop.
Import OpenAIPromptSource Backoff.

Variables (prompt_id : string) (version : option string) (cache_key : string).
Variables (max_retries timeout : Z).

Let call : event := EvApiCall prompt_id (sent_version version) timeout.
Let loop := retry_loop prompt_id version cache_key max_retries timeout.

(** One attempt makes one API call and reads its answer. *)
Lemma attempt_body_eq (w : World) :
  attempt_body prompt_id version timeout w =
    (body_result prompt_id (api w (api_calls w) prompt_id (sent_version version)),
     (responses_create prompt_id (sent_version version) timeout w).2).
Proof.
  unfold attempt_body, body_result, responses_create, sent_version. simpl.
  destruct (api w (api_calls w) prompt_id _) as [r|e]; [| done].
  destruct (_extract_prompt_text r) as [txt|e]; [| done].
  by destruct (negb (PyStr.truthy_str txt)).
Qed.






(** Every run of the loop that makes at least one attempt, and whose
    counter is in step with the budget, ends in a string or in one of
    the four typed errors. *)
Lemma loop_result_kinds (remaining : nat) (attempt : Z) (s : t) (w : World) :
  (1 ≤ remaining)%nat →
  attempt + Z.of_nat remaining = max_retries →
  ∃ s' w',
    (∃ content, loop remaining attempt s w = (Return (Some content), s', w'))
    ∨ (∃ e, loop remaining attempt s w = (Raise e, s', w')
            ∧ typed_error e = true).
Proof.
  revert attempt s w.
  induction remaining as [|k IH]; intros attempt s w Hpos Hsum; [lia |].
  unfold loop. cbn [retry_loop].
  destruct (attempt_body prompt_id version timeout w) as [[txt|e] w'].
  { do 2 eexists. left. by eexists. }
  assert (Hlast : (attempt <? max_retries - 1) = true → (1 ≤ k)%nat).
  { intros H%Z.ltb_lt. lia. }
  destruct (classify e).
  - do 2 eexists. right. eexists. split; [done |]. by vm_compute.
  - destruct (attempt <? max_retries - 1) eqn:E.
    + apply IH; [by apply Hlast | lia].
    + do 2 eexists. right. eexists. split; [done |]. by vm_compute.
  - destruct (attempt <? max_retries - 1) eqn:E.
    + apply IH; [by apply Hlast | lia].
    + do 2 eexists. right. eexists. split; [done |]. by vm_compute.
  - destruct (attempt <? max_retries - 1) eqn:E.
    + apply IH; [by apply Hlast | lia].
    + do 2 eexists. right. eexists. split; [done |]. by vm_compute.
Qed.
End RetryLoop.

(** ** [OpenAIPromptSource.get_prompt] *)

Section OpenAIGetPrompt.
Import OpenAIPromptSource Backoff.

Variables (s s1 : t) (w : World) (prompt_id : string) (version : option string).

Let cache_key : string := prompt_id +:+ ":" +:+ PyStr.or_latest version.
Let budget : Z := default 3 (max_retries (config s1)).
Let timeout_ : Z := default 30 (timeout (config s1)).
Let call : event := EvApiCall prompt_id (sent_version version) timeout_.

Hypothesis Hinit : _ensure_initialized s w = (Return tt, s1).
Hypothesis Hmiss : _cache s1 !! cache_key = None.

(** On an uncached identifier [get_prompt] is the retry loop. *)
Lemma get_prompt_is_loop :
  get_prompt s w prompt_id version
    = retry_loop prompt_id version cache_key budget timeout_
        (Z.to_nat budget) 0 s1 w.
Proof. unfold get_prompt. rewrite Hinit. fold cache_key. by rewrite Hmiss. Qed.


End OpenAIGetPrompt.



(** C10. The OpenAI adapter's [get_prompt] on an uncached identifier: with
    [max_retries] at least 1 it returns a string or raises one of the typed
    errors of the retry loop; with [max_retries] equal to 0 the loop body
    never runs and the call returns [None], with no API call. *)
Theorem openai_get_prompt_result_kinds
    (s s1 : OpenAIPromptSource.t) (w : World) (prompt_id : string)
    (version : option string) :
  let max_retries :=
    default 3 (OpenAIPromptSource.max_retries (OpenAIPromptSource.config s1)) in
  OpenAIPromptSource._ensure_initialized s w = (Return tt, s1) →
  OpenAIPromptSource._cache s1 !! (prompt_id +:+ ":" +:+ PyStr.or_latest version)
    = None →
  (1 ≤ max_retries →
   ∃ s' w',
     (∃ content, OpenAIPromptSource.get_prompt s w prompt_id version
                   = (Return (Some content), s', w'))
     ∨ (∃ e, OpenAIPromptSource.get_prompt s w prompt_id version = (Raise e, s', w')
             ∧ Backoff.typed_error e = true))
  ∧ (max_retries = 0 →
     OpenAIPromptSource.get_prompt s w prompt_id version = (Return None, s1, w)).
Proof.
  intros max_retries Hinit Hmiss. split.
  - intros Hpos. rewrite (get_prompt_is_loop s s1 w prompt_id version Hinit Hmiss).
    apply loop_result_kinds; fold max_retries; lia.
  - intros Hzero. rewrite (get_prompt_is_loop s s1 w prompt_id version Hinit Hmiss).
    fold max_retries. by rewrite Hzero.
Qed.

(** An adapter with a budget of three gives the string of its third
    attempt; the same adapter with a budget of zero gives [None]. *)
Lemma openai_get_prompt_result_kinds_witness :
  (∃ s' w',
     (∃ content, OpenAIPromptSource.get_prompt Scenarios.fresh_source
                   Scenarios.flaky_world "abc" None
                 = (Return (Some content), s', w'))
     ∨ (∃ e, OpenAIPromptSource.get_prompt Scenarios.fresh_source
               Scenarios.flaky_world "abc" None = (Raise e, s', w')
             ∧ Backoff.typed_error e = true))
  ∧ OpenAIPromptSource.get_prompt
      (OpenAIPromptSource.new
         (OpenAIPromptSource.mk_config (Some "sk-test") (Some 30) (Some 0)))
      Scenarios.flaky_world "abc" None
    = (Return None,
       OpenAIPromptSource.mk
         (OpenAIPromptSource.mk_config (Some "sk-test") (Some 30) (Some 0))
         true (Some "sk-test") ∅,
       Scenarios.flaky_world).
Proof.
  split.
  - apply (openai_get_prompt_result_kinds Scenarios.fresh_source
             Scenarios.ready_source Scenarios.flaky_world "abc" None
             eq_refl eq_refl).
    simpl. lia.
  - apply (openai_get_prompt_result_kinds
             (OpenAIPromptSource.new
                (OpenAIPromptSource.mk_config (Some "sk-test") (Some 30) (Some 0)))
             _ Scenarios.flaky_world "abc" None eq_refl eq_refl).
    reflexivity.
Defined.

(** ** [PromptManager.get_prompt] off the cache *)




(** C8, as the claim states it, fails: a name that is no longer in the
    registry but still has a live cache entry gets the cached content, with
    or without a default. *)
Lemma cached_entry_beats_default :
  PromptRegistry._prompts (PromptManager.registry Scenarios.unregistered)
    !! "greeting" = None
  ∧ (Scenarios.get_unregistered (Some "D")).1.1 = Return (Some "Hello {name}!")
  ∧ (Scenarios.get_unregistered (Some "D")).1.1 ≠ Return (Some "D")
  ∧ (Scenarios.get_unregistered None).1.1 = Return (Some "Hello {name}!").
Proof. repeat split; by vm_compute. Qed.

(** The same through the manager's own operations only: the cache key of
    ["greeting"] at version ["v:latest"] is the key of the unregistered
    name ["greeting:v"] at no version. *)
Lemma cache_key_collision_beats_default :
  PromptRegistry._prompts
    (PromptManager.registry Scenarios.fetched_versioned.1.2) !! "greeting:v" = None
  ∧ Scenarios.get_colliding.1.1 = Return (Some "Hello {name}!").
Proof. split; by vm_compute. Qed.

(** C8, amended. For every name that is not in the registry and has no
    live entry in the manager's cache under its key, [get_prompt(name,
    default=D)], called without variables, returns [D] and raises nothing;
    with no default it fails with [PromptNotRegisteredError]. *)
Theorem unregistered_name_uses_default
    (m : PromptManager.t) (w : World) (name : string) (version : option string)
    (variables : option (gmap string string)) (kwargs : gmap string string) :
  let cache_key := name +:+ ":" +:+ PyStr.or_latest version in
  let m1 := (PromptManager._get_cached m w cache_key).2 in
  PromptRegistry._prompts (PromptManager.registry m) !! name = None →
  (PromptManager._get_cached m w cache_key).1 = None →
  PromptManager.truthy_variables variables = false →
  (∀ D, PromptManager.get_prompt m w name version variables (Some D) kwargs
          = (Return (Some D), m1, w))
  ∧ (∃ e, PromptManager.get_prompt m w name version variables None kwargs
            = (Raise e, m1, w)
          ∧ exn_class e = PromptNotRegisteredError).
Proof.
  intros cache_key m1 Hreg Hmiss Hvars.
  pose proof (get_cached_registry m w cache_key) as Hsame.
  unfold PromptManager.get_prompt, PromptManager.get_prompt_body.
  fold cache_key. subst m1.
  destruct (PromptManager._get_cached m w cache_key) as [cached m1].
  simpl in Hmiss, Hsame |- *. subst cached.
  unfold PromptRegistry.get. rewrite Hsame, Hreg.
  unfold PromptManager._apply_variables. rewrite Hvars. simpl.
  split; [done |]. by eexists.
Qed.

Lemma unregistered_name_uses_default_witness :
  (∀ D, PromptManager.get_prompt Scenarios.greeting_manager
          Scenarios.greeting_world "farewell" None None (Some D) ∅
        = (Return (Some D), Scenarios.greeting_manager, Scenarios.greeting_world))
  ∧ (∃ e, PromptManager.get_prompt Scenarios.greeting_manager
            Scenarios.greeting_world "farewell" None None None ∅
          = (Raise e, Scenarios.greeting_manager, Scenarios.greeting_world)
          ∧ exn_class e = PromptNotRegisteredError).
Proof.
  apply (unregistered_name_uses_default Scenarios.greeting_manager
           Scenarios.greeting_world "farewell" None None ∅); by vm_compute.
Defined.

(** * Further properties of the code *)

(** ** The registry over sequences of calls *)

Section RegistrySequences.
Import PromptRegistry RegistryOps.

Lemma live_in_use_apply_op (r : t) (o : op) :
  live_in_use r → live_in_use (apply_op r o).
Proof.
  destruct o as [c ov|name|]; simpl.
  - apply live_in_use_register.
  - apply live_in_use_remove.
  - intros _. apply live_in_use_clear.
Qed.

Lemma live_in_use_foldl (ops : list op) (r : t) :
  live_in_use r → live_in_use (foldl apply_op r ops).
Proof.
  revert r. induction ops as [|o ops IH]; intros r H; simpl; [done |].
  by apply IH, live_in_use_apply_op.
Qed.

(** Registering without overwriting keeps the derived set exact. *)
Lemma in_use_live_register_no_overwrite (r : t) (c : PromptConfig.t) :
  in_use_live r → in_use_live (register r c false).2.
Proof.
  intros Hr. unfold register.
  destruct (_prompts r !! PromptConfig.name c) as [old|] eqn:E.
  - rewrite bool_decide_eq_true_2 by (by eexists). done.
  - rewrite bool_decide_eq_false_2 by (by intros [? ?]). simpl.
    intros st Hst. simpl in Hst.
    apply elem_of_union in Hst as [Hst%elem_of_singleton | Hst].
    + exists (PromptConfig.name c), c. simpl. by rewrite lookup_insert_eq.
    + destruct (Hr st Hst) as (name & config & Hl & Hs).
      exists name, config. simpl. split; [| done].
      rewrite lookup_insert_ne; [done |]. intros <-. congruence.
Qed.

Lemma in_use_live_init : in_use_live init.
Proof. intros st H. simpl in H. set_solver. Qed.

Lemma in_use_live_remove_any (r : t) (name : string) :
  in_use_live r → in_use_live (remove r name).2.
Proof.
  intros Hr. destruct (_prompts r !! name) eqn:E.
  - apply in_use_live_remove. by eexists.
  - unfold remove. by rewrite E.
Qed.

Lemma in_use_live_foldl (ops : list op) (r : t) :
  never_overwrites ops = true → in_use_live r →
  in_use_live (foldl apply_op r ops).
Proof.
  revert r. induction ops as [|o ops IH]; intros r Hno H; simpl; [done |].
  simpl in Hno. apply andb_prop in Hno as [Ho Hno]. apply IH; [done |].
  destruct o as [c ov|name|]; simpl.
  - apply negb_true_iff in Ho as ->. by apply in_use_live_register_no_overwrite.
  - by apply in_use_live_remove_any.
  - apply in_use_live_init.
Qed.
End RegistrySequences.

(** X1. After any sequence of [register] (with or without overwrite),
    [remove] and [clear] calls on a new registry, whether they succeed or
    raise, the source type of every registered prompt is in
    [get_sources_in_use()]. *)
Theorem sources_in_use_cover_registered_prompts (ops : list RegistryOps.op) :
  ∀ name config,
    PromptRegistry._prompts (RegistryOps.run ops) !! name = Some config →
    PromptConfig.source config
      ∈ PromptRegistry.get_sources_in_use (RegistryOps.run ops).
Proof. apply live_in_use_foldl, live_in_use_init. Qed.

(** X2. After any sequence of [register], [remove] and [clear] calls in
    which no [register] asks to overwrite, [get_sources_in_use()] is exactly
    the set of source types of the registered prompts. *)
Theorem sources_in_use_exact_without_overwrite (ops : list RegistryOps.op) :
  RegistryOps.never_overwrites ops = true →
  ∀ st, st ∈ PromptRegistry.get_sources_in_use (RegistryOps.run ops)
        ↔ ∃ name config,
            PromptRegistry._prompts (RegistryOps.run ops) !! name = Some config
            ∧ PromptConfig.source config = st.
Proof.
  intros Hno st. split.
  - apply (in_use_live_foldl ops PromptRegistry.init Hno in_use_live_init).
  - intros (name & config & Hl & <-).
    by apply (live_in_use_foldl ops PromptRegistry.init live_in_use_init name).
Qed.

Lemma sources_in_use_exact_without_overwrite_witness :
  let ops := [RegistryOps.Register Scenarios.local_a false;
              RegistryOps.Register Scenarios.openai_a false;
              RegistryOps.Remove "a";
              RegistryOps.Register Scenarios.openai_a false] in
  LOCAL ∈ PromptRegistry.get_sources_in_use (RegistryOps.run ops)
  ↔ ∃ name config,
      PromptRegistry._prompts (RegistryOps.run ops) !! name = Some config
      ∧ PromptConfig.source config = LOCAL.
Proof.
  intros ops. apply (sources_in_use_exact_without_overwrite ops). reflexivity.
Defined.

(** X3. A [register] call that returns has stored the configuration:
    [get] of its name gives it back and [exists] is true, every other name
    reads as before, and the registry has grown by one entry exactly when
    the name was new. *)
Theorem register_then_get (r r' : PromptRegistry.t) (config : PromptConfig.t)
    (overwrite : bool) :
  PromptRegistry.register r config overwrite = (Return tt, r') →
  PromptRegistry.get r' (PromptConfig.name config) = Return config
  ∧ PromptRegistry.exists_ r' (PromptConfig.name config) = true
  ∧ (∀ other, other ≠ PromptConfig.name config →
              PromptRegistry.get r' other = PromptRegistry.get r other)
  ∧ PromptRegistry.len r'
    = (if PromptRegistry.exists_ r (PromptConfig.name config)
       then PromptRegistry.len r else S (PromptRegistry.len r)).
Proof.
  unfold PromptRegistry.register, PromptRegistry.get, PromptRegistry.exists_,
    PromptRegistry.len.
  intros H. destruct (bool_decide _ && negb overwrite) eqn:E; [done |].
  injection H as <-. simpl. rewrite lookup_insert_eq.
  split; [done |]. split; [by apply bool_decide_eq_true_2 |].
  split; [by intros other Hne; rewrite lookup_insert_ne |].
  case_bool_decide as Hex.
  - by apply map_size_insert_Some.
  - apply map_size_insert_None. by apply eq_None_not_Some.
Qed.

Lemma register_then_get_witness :
  PromptRegistry.get Scenarios.registry_overwritten "a" = Return Scenarios.openai_a
  ∧ PromptRegistry.exists_ Scenarios.registry_overwritten "a" = true
  ∧ (∀ other, other ≠ "a" →
              PromptRegistry.get Scenarios.registry_overwritten other
              = PromptRegistry.get Scenarios.registry_local other)
  ∧ PromptRegistry.len Scenarios.registry_overwritten
    = (if PromptRegistry.exists_ Scenarios.registry_local "a"
       then PromptRegistry.len Scenarios.registry_local
       else S (PromptRegistry.len Scenarios.registry_local)).
Proof.
  apply (register_then_get Scenarios.registry_local Scenarios.registry_overwritten
           Scenarios.openai_a true).
  reflexivity.
Defined.

(** X4. [remove] of a name that is not registered raises
    [PromptNotRegisteredError] and changes nothing; [remove] of a
    registered name returns, after which [get] of that name raises
    [PromptNotRegisteredError], [exists] is false, every other name reads
    as before and the registry is one entry smaller. *)
Theorem remove_then_get (r : PromptRegistry.t) (name : string) :
  match PromptRegistry._prompts r !! name with
  | None =>
      PromptRegistry.remove r name
      = (Raise (mk_PromptNotRegisteredError name), r)
  | Some _ =>
      (PromptRegistry.remove r name).1 = Return tt
      ∧ PromptRegistry.get (PromptRegistry.remove r name).2 name
        = Raise (mk_PromptNotRegisteredError name)
      ∧ PromptRegistry.exists_ (PromptRegistry.remove r name).2 name = false
      ∧ (∀ other, other ≠ name →
                  PromptRegistry.get (PromptRegistry.remove r name).2 other
                  = PromptRegistry.get r other)
      ∧ S (PromptRegistry.len (PromptRegistry.remove r name).2)
        = PromptRegistry.len r
  end.
Proof.
  unfold PromptRegistry.remove, PromptRegistry.get, PromptRegistry.exists_,
    PromptRegistry.len.
  destruct (PromptRegistry._prompts r !! name) as [c|] eqn:E; [| done].
  simpl. rewrite lookup_delete_eq.
  split; [done |]. split; [done |].
  split; [apply bool_decide_eq_false_2; by intros [? ?] |].
  split; [by intros other Hne; rewrite lookup_delete_ne |].
  rewrite map_size_delete_Some by (by eexists).
  assert (size (PromptRegistry._prompts r) ≠ 0%nat).
  { intros H0%map_size_empty_iff. rewrite H0 in E. by rewrite lookup_empty in E. }
  lia.
Qed.

Lemma sources_in_use_cover_registered_prompts_witness :
  PromptConfig.source Scenarios.openai_a
    ∈ PromptRegistry.get_sources_in_use
        (RegistryOps.run [RegistryOps.Register Scenarios.local_a false;
                          RegistryOps.Register Scenarios.openai_a true]).
Proof.
  apply (sources_in_use_cover_registered_prompts
           [RegistryOps.Register Scenarios.local_a false;
            RegistryOps.Register Scenarios.openai_a true] "a").
  reflexivity.
Defined.

(** ** [PromptRegistry.validate_prompts] *)

Lemma omap_nil_iff {A B : Type} (f : A → option B) (l : list A) :
  omap f l = [] ↔ ∀ x, x ∈ l → f x = None.
Proof.
  induction l as [|a l IH]; simpl.
  - split; [intros _ x Hx; by apply elem_of_nil in Hx | done].
  - destruct (f a) eqn:E.
    + split; [done |]. intros H. specialize (H a (list_elem_of_here _ _)). congruence.
    + rewrite IH. split.
      * intros H x [-> | Hx]%elem_of_cons; [done | by apply H].
      * intros H x Hx. apply H. by apply list_elem_of_further.
Qed.

(** X5. [validate_prompts()] with no filter returns no error exactly when
    every registered OpenAI prompt has a [prompt_id] in its source
    configuration; local prompts are never reported, so filtering on the
    local source type always gives the empty list. *)
Theorem validate_prompts_empty_iff (r : PromptRegistry.t) :
  (PromptRegistry.validate_prompts r None = []
   ↔ ∀ name config,
       PromptRegistry._prompts r !! name = Some config →
       PromptConfig.source config = OPENAI →
       is_Some (PromptConfig.source_config config !! "prompt_id"))
  ∧ PromptRegistry.validate_prompts r (Some LOCAL) = [].
Proof.
  unfold PromptRegistry.validate_prompts. split.
  - rewrite omap_nil_iff. split.
    + intros H name config Hl Hs.
      specialize (H (name, config)). rewrite elem_of_map_to_list in H.
      specialize (H Hl). unfold PromptRegistry.prompt_error in H. simpl in H.
      rewrite Hs in H. by case_bool_decide.
    + intros H [name config] Hl%elem_of_map_to_list.
      unfold PromptRegistry.prompt_error. simpl.
      destruct (PromptConfig.source config) eqn:Hs; [| done].
      by rewrite bool_decide_eq_true_2 by (by apply (H name)).
  - apply omap_nil_iff. intros [name config] _.
    unfold PromptRegistry.prompt_error. simpl.
    by destruct (PromptConfig.source config).
Qed.

(** ** Source-type strings *)

Lemma from_string_accepts (v : string) (st : SourceType) :
  PyStr.lower v = SourceType_.value st → SourceType_.from_string v = Return st.
Proof.
  intros H. unfold SourceType_.from_string. rewrite H. by destruct st.
Qed.

Lemma from_string_rejects (v : string) :
  (∀ st, PyStr.lower v ≠ SourceType_.value st) →
  ∃ e, SourceType_.from_string v = Raise e ∧ exn_class e = ConfigurationError.
Proof.
  intros H. unfold SourceType_.from_string.
  destruct (String.eqb_spec (PyStr.lower v) "openai") as [E|_];
    [by destruct (H OPENAI) |].
  destruct (String.eqb_spec (PyStr.lower v) "local") as [E|_];
    [by destruct (H LOCAL) |].
  by eexists.
Qed.

(** X6. [register_prompt] reads its source string without regard to
    letter case.  For a name that is not registered yet (or with
    [overwrite=True]): if the lower-cased string is the value of a source
    type, the call returns and the registry holds the prompt under that
    source type, with the given source configuration (empty when none is
    given) and TTL; if it is the value of no source type, the call raises
    [ConfigurationError] and the manager is unchanged. *)
Theorem register_prompt_source_string
    (m : PromptManager.t) (name source : string)
    (source_config : option (gmap string string)) (cache_ttl : option Z)
    (overwrite : bool) :
  PromptManager.prompt_exists m name = false ∨ overwrite = true →
  (∀ st, PyStr.lower source = SourceType_.value st →
     ∃ m', PromptManager.register_prompt m name source source_config cache_ttl
             overwrite = (Return tt, m')
           ∧ PromptRegistry.get (PromptManager.registry m') name
             = Return (PromptConfig.mk name st (default ∅ source_config) cache_ttl)
           ∧ PromptManager.prompt_exists m' name = true
           ∧ PromptManager._cache m' = PromptManager._cache m)
  ∧ ((∀ st, PyStr.lower source ≠ SourceType_.value st) →
     ∃ e, PromptManager.register_prompt m name source source_config cache_ttl
            overwrite = (Raise e, m)
          ∧ exn_class e = ConfigurationError).
Proof.
  intros Hfresh. destruct m as [c r s ca].
  unfold PromptManager.register_prompt, PromptRegistry.register_from_dict,
    PromptConfig.new, PromptManager.prompt_exists in *. simpl in *.
  split.
  - intros st Hst. rewrite (from_string_accepts _ _ Hst).
    unfold PromptRegistry.register. simpl.
    assert (bool_decide (is_Some (PromptRegistry._prompts r !! name))
            && negb overwrite = false) as ->.
    { destruct Hfresh as [H | ->]; [| apply andb_false_r].
      unfold PromptRegistry.exists_ in H. by rewrite H. }
    eexists. split; [reflexivity |]. simpl.
    unfold PromptRegistry.get, PromptRegistry.exists_. simpl.
    rewrite lookup_insert_eq. split; [done |]. split; [| done].
    apply bool_decide_eq_true_2. by eexists.
  - intros Hno. destruct (from_string_rejects source Hno) as (e & -> & _).
    by eexists.
Qed.

Lemma register_prompt_source_string_witness :
  (∃ m', PromptManager.register_prompt Scenarios.manager_with_a "b" "OpenAI"
           None (Some 5) false = (Return tt, m')
         ∧ PromptRegistry.get (PromptManager.registry m') "b"
           = Return (PromptConfig.mk "b" OPENAI ∅ (Some 5))
         ∧ PromptManager.prompt_exists m' "b" = true
         ∧ PromptManager._cache m' = PromptManager._cache Scenarios.manager_with_a)
  ∧ (∃ e, PromptManager.register_prompt Scenarios.manager_with_a "b" "s3"
            None (Some 5) false = (Raise e, Scenarios.manager_with_a)
          ∧ exn_class e = ConfigurationError).
Proof.
  split.
  - apply (proj1 (register_prompt_source_string Scenarios.manager_with_a
                    "b" "OpenAI" None (Some 5) false (or_introl eq_refl)) OPENAI).
    reflexivity.
  - apply (proj2 (register_prompt_source_string Scenarios.manager_with_a
                    "b" "s3" None (Some 5) false (or_introl eq_refl))).
    intros []; discriminate.
Defined.

(** ** Letter case in failure messages *)






(** ** Retries after failures of any retriable class *)

Section RetryAnyClass.
Import OpenAIPromptSource Backoff Retry.

Variables (prompt_id : string) (version : option string) (cache_key : string).
Variables (max_retries timeout : Z).

Let call : event := EvApiCall prompt_id (sent_version version) timeout.
Let loop := retry_loop prompt_id version cache_key max_retries timeout.

Lemma pause_world_api (c : failure_class) (attempt : Z) (w : World) :
  api (pause_world c attempt w) = api w
  ∧ api_calls (pause_world c attempt w) = api_calls w
  ∧ trace (pause_world c attempt w) = (trace w ++ pause c attempt)%list.
Proof. destruct c; simpl; by rewrite ?app_nil_r. Qed.

Lemma retry_world_api (attempt : Z) (cs : list failure_class) (w : World) :
  api (retry_world prompt_id version timeout attempt cs w) = api w.
Proof.
  revert attempt w. induction cs as [|c cs IH]; intros; cbn [retry_world]; [done |].
  rewrite IH. by destruct (pause_world_api c attempt
    (responses_create prompt_id (sent_version version) timeout w).2) as [-> _].
Qed.

Lemma retry_world_calls (attempt : Z) (cs : list failure_class) (w : World) :
  api_calls (retry_world prompt_id version timeout attempt cs w)
    = (api_calls w + length cs)%nat.
Proof.
  revert attempt w. induction cs as [|c cs IH]; intros;
    cbn [retry_world length]; [lia |].
  rewrite IH.
  destruct (pause_world_api c attempt
    (responses_create prompt_id (sent_version version) timeout w).2) as (_ & -> & _).
  simpl. lia.
Qed.

Lemma retry_world_trace (attempt : Z) (cs : list failure_class) (w : World) :
  trace (retry_world prompt_id version timeout attempt cs w)
    = (trace w ++ retry_trace call attempt cs)%list.
Proof.
  revert attempt w. induction cs as [|c cs IH]; intros;
    cbn [retry_world retry_trace].
  - by rewrite app_nil_r.
  - rewrite IH.
    destruct (pause_world_api c attempt
      (responses_create prompt_id (sent_version version) timeout w).2) as (_ & _ & ->).
    simpl. by rewrite <- !app_assoc.
Qed.

(** Failed attempts of retriable classes, all of them before the last
    attempt of the budget, are each followed by the pause of their class
    and by the next attempt. *)
Lemma loop_retries (cs : list failure_class) (rest : nat) (attempt : Z)
    (s : t) (w : World) :
  (∀ i c, cs !! i = Some c →
          retriable c = true
          ∧ fails_as c (body_result prompt_id
                          (api w (api_calls w + i)%nat prompt_id
                             (sent_version version)))) →
  attempt + Z.of_nat (length cs) ≤ max_retries - 1 →
  loop (length cs + rest)%nat attempt s w
    = loop rest (attempt + Z.of_nat (length cs)) s
        (retry_world prompt_id version timeout attempt cs w).
Proof.
  revert attempt w. induction cs as [|c cs IH]; intros attempt w Hfail Hle.
  - simpl. by rewrite Z.add_0_r.
  - unfold loop. cbn [length Nat.add retry_loop]. rewrite attempt_body_eq.
    destruct (Hfail 0%nat c eq_refl) as [Hr H0]. rewrite Nat.add_0_r in H0.
    destruct (body_result prompt_id _) as [txt|e]; [done |].
    simpl in H0. rewrite H0. cbn [length] in Hle.
    assert ((attempt <? max_retries - 1) = true) as -> by (apply Z.ltb_lt; lia).
    fold loop.
    assert (Hnext : ∀ w1, api w1 = api w → api_calls w1 = S (api_calls w) →
              loop (length cs + rest)%nat (attempt + 1) s w1
              = loop rest (attempt + Z.of_nat (S (length cs))) s
                  (retry_world prompt_id version timeout (attempt + 1) cs w1)).
    { intros w1 Hapi Hcalls. rewrite IH.
      - f_equal. lia.
      - intros i c' Hc'. destruct (Hfail (S i) c' Hc') as [Hr' Hf'].
        split; [done |]. rewrite Hapi, Hcalls.
        by rewrite Nat.add_succ_r in Hf'.
      - lia. }
    destruct c; try done; cbn [retry_world pause_world]; by apply Hnext.
Qed.

(** A successful attempt caches the text; nothing else touches the adapter. *)
Lemma loop_success_state (remaining : nat) (attempt : Z) (s s' : t)
    (w w' : World) (content : string) :
  loop remaining attempt s w = (Return (Some content), s', w') →
  s' = mk (config s) (_initialized s) (_client s)
          (<[cache_key := content]> (_cache s)).
Proof.
  revert attempt w. induction remaining as [|k IH]; intros attempt w H;
    unfold loop in H; cbn [retry_loop] in H; [done |].
  destruct (attempt_body prompt_id version timeout w) as [[txt|e] w1].
  - by injection H as <- <- _.
  - destruct (classify e); [done | | |];
      (destruct (attempt <? max_retries - 1); [by eapply IH | done]).
Qed.

(** The loop makes at most one API call per remaining attempt, and time
    never runs backwards. *)
Lemma loop_call_bound (remaining : nat) (attempt : Z) (s : t) (w : World) :
  0 ≤ attempt →
  (api_calls (loop remaining attempt s w).2 ≤ api_calls w + remaining)%nat
  ∧ now w ≤ now (loop remaining attempt s w).2.
Proof.
  revert attempt w. induction remaining as [|k IH]; intros attempt w Ha;
    unfold loop; cbn [retry_loop]; [simpl; lia |].
  rewrite attempt_body_eq.
  assert (Hpow : 0 < 2 ^ attempt) by (by apply Z.pow_pos_nonneg).
  destruct (body_result prompt_id _) as [txt|e]; [simpl; lia |].
  destruct (classify e); [simpl; lia | | |];
    (destruct (attempt <? max_retries - 1); [| simpl; lia]); fold loop.
  - destruct (IH (attempt + 1)
      (sleep (2 ^ attempt)
         (responses_create prompt_id (sent_version version) timeout w).2)
      ltac:(lia)) as [H1 H2].
    simpl in H1, H2 |- *. lia.
  - destruct (IH (attempt + 1)
      (responses_create prompt_id (sent_version version) timeout w).2
      ltac:(lia)) as [H1 H2].
    simpl in H1, H2 |- *. lia.
  - destruct (IH (attempt + 1)
      (sleep 1 (responses_create prompt_id (sent_version version) timeout w).2)
      ltac:(lia)) as [H1 H2].
    simpl in H1, H2 |- *. lia.
Qed.

(** With the attempt counter in step with the budget, the time slept is
    less than the sum of the back-off sleeps of the attempts left. *)
Lemma loop_sleep_bound (remaining : nat) (attempt : Z) (s : t) (w : World) :
  0 ≤ attempt → (1 ≤ remaining)%nat →
  attempt + Z.of_nat remaining = max_retries →
  now (loop remaining attempt s w).2 - now w ≤ 2 ^ (max_retries - 1) - 2 ^ attempt.
Proof.
  revert attempt w. induction remaining as [|k IH]; intros attempt w Ha Hk Hsum;
    [lia |].
  unfold loop; cbn [retry_loop]. rewrite attempt_body_eq.
  assert (Hmono : 2 ^ attempt ≤ 2 ^ (max_retries - 1))
    by (apply Z.pow_le_mono_r; lia).
  assert (Hpow : 0 < 2 ^ attempt) by (by apply Z.pow_pos_nonneg).
  assert (Hstep : 2 ^ (attempt + 1) = 2 * 2 ^ attempt)
    by (rewrite Z.pow_add_r by lia; lia).
  destruct (body_result prompt_id _) as [txt|e]; [simpl; lia |].
  destruct (classify e); [simpl; lia | | |];
    (destruct (attempt <? max_retries - 1) eqn:E; [| simpl; lia]); fold loop;
    apply Z.ltb_lt in E.
  - pose proof (IH (attempt + 1)
      (sleep (2 ^ attempt)
         (responses_create prompt_id (sent_version version) timeout w).2)
      ltac:(lia) ltac:(lia) ltac:(lia)) as H.
    simpl in H |- *. lia.
  - pose proof (IH (attempt + 1)
      (responses_create prompt_id (sent_version version) timeout w).2
      ltac:(lia) ltac:(lia) ltac:(lia)) as H.
    simpl in H |- *. lia.
  - pose proof (IH (attempt + 1)
      (sleep 1 (responses_create prompt_id (sent_version version) timeout w).2)
      ltac:(lia) ltac:(lia) ltac:(lia)) as H.
    simpl in H |- *. lia.
Qed.
End RetryAnyClass.

Lemma ensure_initialized_ok (s s1 : OpenAIPromptSource.t) (w : World) :
  OpenAIPromptSource._ensure_initialized s w = (Return tt, s1) →
  OpenAIPromptSource._initialized s1 = true
  ∧ OpenAIPromptSource.config s1 = OpenAIPromptSource.config s
  ∧ OpenAIPromptSource._cache s1 = OpenAIPromptSource._cache s.
Proof.
  unfold OpenAIPromptSource._ensure_initialized, OpenAIPromptSource.initialize.
  destruct (OpenAIPromptSource._initialized s) eqn:E.
  - intros [= <-]. auto.
  - repeat case_match; try done; intros [= <-]; simplify_eq; auto.
Qed.

Lemma ensure_initialized_config (s : OpenAIPromptSource.t) (w : World) :
  OpenAIPromptSource.config (OpenAIPromptSource._ensure_initialized s w).2
    = OpenAIPromptSource.config s.
Proof.
  unfold OpenAIPromptSource._ensure_initialized, OpenAIPromptSource.initialize.
  destruct (OpenAIPromptSource._initialized s); [done |].
  destruct (HAS_OPENAI w); simpl; [| done].
  destruct (OpenAIPromptSource.api_key (OpenAIPromptSource.config s)) as [key|];
    [| done].
  destruct (PyStr.truthy_str key); [| done].
  by destruct (client_ctor w key).
Qed.

(** [get_prompt] after failed attempts of retriable classes, with at least
    one attempt of the budget left. *)
Lemma get_prompt_after_retries
    (s s1 : OpenAIPromptSource.t) (w : World) (prompt_id : string)
    (version : option string) (n : nat)
    (cs : list OpenAIPromptSource.failure_class) :
  let cache_key := prompt_id +:+ ":" +:+ PyStr.or_latest version in
  let budget :=
    default 3 (OpenAIPromptSource.max_retries (OpenAIPromptSource.config s1)) in
  let timeout :=
    default 30 (OpenAIPromptSource.timeout (OpenAIPromptSource.config s1)) in
  OpenAIPromptSource._ensure_initialized s w = (Return tt, s1) →
  OpenAIPromptSource._cache s1 !! cache_key = None →
  budget = Z.of_nat n →
  (length cs < n)%nat →
  (∀ i c, cs !! i = Some c →
          Retry.retriable c = true
          ∧ Backoff.fails_as c (Backoff.nth_attempt w prompt_id version i)) →
  OpenAIPromptSource.get_prompt s w prompt_id version
    = OpenAIPromptSource.retry_loop prompt_id version cache_key budget timeout
        (S (n - length cs - 1)) (Z.of_nat (length cs)) s1
        (Retry.retry_world prompt_id version timeout 0 cs w).
Proof.
  intros cache_key budget timeout Hinit Hmiss Hn Hlen Hfail.
  rewrite (get_prompt_is_loop s s1 w prompt_id version Hinit Hmiss).
  fold cache_key budget timeout.
  replace (Z.to_nat budget) with (length cs + S (n - length cs - 1))%nat by lia.
  rewrite loop_retries; [done | exact Hfail | lia].
Qed.

(** X8. The OpenAI adapter's [get_prompt] on an uncached identifier, when
    an attempt succeeds after failed attempts of any retriable classes
    (rate-limit, timeout, generic): the call returns the content and caches
    it; between a failed attempt and the next one it has slept
    [2 ^ attempt] seconds after a rate-limit failure, one second after a
    generic failure and not at all after a timeout. *)
Theorem openai_success_after_retries
    (s s1 : OpenAIPromptSource.t) (w : World) (prompt_id : string)
    (version : option string) (n : nat)
    (cs : list OpenAIPromptSource.failure_class) (content : string) :
  let cache_key := prompt_id +:+ ":" +:+ PyStr.or_latest version in
  let call := EvApiCall prompt_id (Backoff.sent_version version)
                (default 30 (OpenAIPromptSource.timeout (OpenAIPromptSource.config s1))) in
  let attempt := Backoff.nth_attempt w prompt_id version in
  OpenAIPromptSource._ensure_initialized s w = (Return tt, s1) →
  OpenAIPromptSource._cache s1 !! cache_key = None →
  default 3 (OpenAIPromptSource.max_retries (OpenAIPromptSource.config s1)) = Z.of_nat n →
  (length cs < n)%nat →
  (∀ i c, cs !! i = Some c →
          Retry.retriable c = true ∧ Backoff.fails_as c (attempt i)) →
  attempt (length cs) = inl content →
  ∃ s' w',
    OpenAIPromptSource.get_prompt s w prompt_id version
      = (Return (Some content), s', w')
    ∧ OpenAIPromptSource._cache s' !! cache_key = Some content
    ∧ trace w' = (trace w ++ Retry.retry_trace call 0 cs ++ [call])%list
    ∧ api_calls w' = S (api_calls w + length cs).
Proof.
  intros cache_key call attempt Hinit Hmiss Hn Hlen Hfail Hok.
  rewrite (get_prompt_after_retries s s1 w prompt_id version n cs
             Hinit Hmiss Hn Hlen Hfail).
  cbn [OpenAIPromptSource.retry_loop].
  rewrite attempt_body_eq, retry_world_api, retry_world_calls.
  unfold attempt, Backoff.nth_attempt in Hok. rewrite Hok.
  do 2 eexists. split; [done |]. split; [apply lookup_insert_eq |].
  simpl. rewrite retry_world_trace, retry_world_calls, <- app_assoc. done.
Qed.

Lemma openai_success_after_retries_witness :
  ∃ s' w',
    OpenAIPromptSource.get_prompt Scenarios.fresh_source
      (Fixtures.world (Fixtures.flaky_api 1 "connection reset" "Hello")
         Fixtures.no_files) "abc" None
      = (Return (Some "Hello"), s', w')
    ∧ OpenAIPromptSource._cache s' !! "abc:latest" = Some "Hello"
    ∧ trace w' = [Scenarios.abc_call; EvSleep 1; Scenarios.abc_call]
    ∧ api_calls w' = 2%nat.
Proof.
  apply (openai_success_after_retries Scenarios.fresh_source Scenarios.ready_source
           (Fixtures.world (Fixtures.flaky_api 1 "connection reset" "Hello")
              Fixtures.no_files)
           "abc" None 3 [OpenAIPromptSource.GenericFailure] "Hello"
           eq_refl eq_refl eq_refl).
  - simpl. lia.
  - intros [|i] c H; [| done]. injection H as <-. by vm_compute.
  - reflexivity.
Defined.

(** X9. The OpenAI adapter's [get_prompt] on an uncached identifier, when
    every attempt of the budget fails with a retriable failure: the error
    raised is decided by the class of the last failure alone
    ([OpenAIRateLimitError], [OpenAITimeoutError], or a
    [PromptRetrievalError] that wraps the last cause for a generic
    failure), nothing is cached, and no sleep follows the last attempt. *)
Theorem openai_error_after_exhaustion
    (s s1 : OpenAIPromptSource.t) (w : World) (prompt_id : string)
    (version : option string) (n : nat)
    (cs : list OpenAIPromptSource.failure_class)
    (c : OpenAIPromptSource.failure_class) (cause : exn) :
  let cache_key := prompt_id +:+ ":" +:+ PyStr.or_latest version in
  let call := EvApiCall prompt_id (Backoff.sent_version version)
                (default 30 (OpenAIPromptSource.timeout (OpenAIPromptSource.config s1))) in
  let attempt := Backoff.nth_attempt w prompt_id version in
  OpenAIPromptSource._ensure_initialized s w = (Return tt, s1) →
  OpenAIPromptSource._cache s1 !! cache_key = None →
  default 3 (OpenAIPromptSource.max_retries (OpenAIPromptSource.config s1)) = Z.of_nat n →
  S (length cs) = n →
  (∀ i c', cs !! i = Some c' →
           Retry.retriable c' = true ∧ Backoff.fails_as c' (attempt i)) →
  attempt (length cs) = inr cause →
  OpenAIPromptSource.classify cause = c →
  Retry.retriable c = true →
  ∃ e w',
    OpenAIPromptSource.get_prompt s w prompt_id version = (Raise e, s1, w')
    ∧ exn_class e = Retry.exhausted_error c
    ∧ (c = OpenAIPromptSource.GenericFailure →
       e = mk_PromptRetrievalError prompt_id OpenAIPromptSource.source_type cause)
    ∧ trace w' = (trace w ++ Retry.retry_trace call 0 cs ++ [call])%list.
Proof.
  intros cache_key call attempt Hinit Hmiss Hn Hlen Hfail Hlast Hc Hr.
  rewrite (get_prompt_after_retries s s1 w prompt_id version n cs
             Hinit Hmiss Hn ltac:(lia) Hfail).
  replace (n - length cs - 1)%nat with 0%nat by lia.
  cbn [OpenAIPromptSource.retry_loop].
  rewrite attempt_body_eq, retry_world_api, retry_world_calls.
  unfold attempt, Backoff.nth_attempt in Hlast. rewrite Hlast, Hc.
  assert ((Z.of_nat (length cs) <?
             default 3 (OpenAIPromptSource.max_retries (OpenAIPromptSource.config s1)) - 1)
          = false) as -> by (apply Z.ltb_ge; lia).
  destruct c; [done | | |];
    (do 2 eexists; split; [reflexivity |]; split; [done |]; split; [done |];
     simpl; rewrite retry_world_trace, <- app_assoc; done).
Qed.

Lemma openai_error_after_exhaustion_witness :
  ∃ e w',
    OpenAIPromptSource.get_prompt Scenarios.fresh_source
      (Fixtures.world (Fixtures.flaky_api 5 "Request timeout" "Hello")
         Fixtures.no_files) "abc" None
      = (Raise e, Scenarios.ready_source, w')
    ∧ exn_class e = OpenAITimeoutError
    ∧ (OpenAIPromptSource.TimeoutFailure = OpenAIPromptSource.GenericFailure →
       e = mk_PromptRetrievalError "abc" OpenAIPromptSource.source_type
             (mk_exn ExternalError "Request timeout"))
    ∧ trace w' = [Scenarios.abc_call; Scenarios.abc_call; Scenarios.abc_call].
Proof.
  apply (openai_error_after_exhaustion Scenarios.fresh_source Scenarios.ready_source
           (Fixtures.world (Fixtures.flaky_api 5 "Request timeout" "Hello")
              Fixtures.no_files)
           "abc" None 3
           [OpenAIPromptSource.TimeoutFailure; OpenAIPromptSource.TimeoutFailure]
           OpenAIPromptSource.TimeoutFailure (mk_exn ExternalError "Request timeout")
           eq_refl eq_refl eq_refl eq_refl).
  - intros [|[|i]] c H; [| | done]; injection H as <-; by vm_compute.
  - reflexivity.
  - reflexivity.
  - reflexivity.
Defined.

(** X10. Whatever the API answers, one [get_prompt] of the OpenAI adapter
    makes at most [max_retries] API calls, and the time it spends asleep
    is at most [2 ^ (max_retries - 1) - 1] seconds (none when
    [max_retries] is below 1). *)
Theorem openai_get_prompt_bounds
    (s : OpenAIPromptSource.t) (w : World) (prompt_id : string)
    (version : option string) :
  let n := default 3 (OpenAIPromptSource.max_retries (OpenAIPromptSource.config s)) in
  let w' := (OpenAIPromptSource.get_prompt s w prompt_id version).2 in
  (api_calls w' ≤ api_calls w + Z.to_nat n)%nat
  ∧ 0 ≤ now w' - now w ≤ Z.max 0 (2 ^ (n - 1) - 1).
Proof.
  intros n w'. subst w'. unfold OpenAIPromptSource.get_prompt.
  pose proof (ensure_initialized_config s w) as Hcfg.
  destruct (OpenAIPromptSource._ensure_initialized s w) as [[[]|e|] s1];
    simpl in Hcfg; [| simpl; lia | simpl; lia].
  destruct (OpenAIPromptSource._cache s1 !! _); [simpl; lia |].
  rewrite Hcfg. fold n.
  set (timeout := default 30 _).
  set (key := prompt_id +:+ ":" +:+ PyStr.or_latest version).
  destruct (loop_call_bound prompt_id version key n timeout (Z.to_nat n) 0 s1 w
              ltac:(lia)) as [Hcalls Hnow].
  split; [exact Hcalls |]. split; [lia |].
  destruct (Z.to_nat n) as [|k] eqn:Ek.
  - simpl. lia.
  - pose proof (loop_sleep_bound prompt_id version key n timeout (S k) 0 s1 w
                  ltac:(lia) ltac:(lia) ltac:(lia)) as H.
    rewrite Z.pow_0_r in H. lia.
Qed.

(** X11. The OpenAI adapter's own cache has no expiry: once [get_prompt]
    has returned a content for an identifier and version, every later
    [get_prompt] for them returns the same content, whatever the time and
    the API's answers, makes no API call and leaves the adapter as it is. *)
Theorem openai_adapter_cache_is_permanent
    (s s' : OpenAIPromptSource.t) (w w' : World) (prompt_id : string)
    (version : option string) (content : string) :
  OpenAIPromptSource.get_prompt s w prompt_id version
    = (Return (Some content), s', w') →
  ∀ w2, OpenAIPromptSource.get_prompt s' w2 prompt_id version
        = (Return (Some content), s', w2).
Proof.
  intros H w2. unfold OpenAIPromptSource.get_prompt in H.
  destruct (OpenAIPromptSource._ensure_initialized s w) as [[[]|e|] s1] eqn:Hi;
    [| done | done].
  destruct (ensure_initialized_ok s s1 w Hi) as (Hinit & _ & _).
  assert (Hs' : OpenAIPromptSource._initialized s' = true
                ∧ OpenAIPromptSource._cache s'
                    !! (prompt_id +:+ ":" +:+ PyStr.or_latest version)
                  = Some content).
  { destruct (OpenAIPromptSource._cache s1 !! _) as [cached|] eqn:Hc.
    - injection H as <- <- _. done.
    - apply loop_success_state in H as ->. simpl.
      split; [done | apply lookup_insert_eq]. }
  destruct Hs' as [Hinit' Hc'].
  unfold OpenAIPromptSource.get_prompt, OpenAIPromptSource._ensure_initialized.
  by rewrite Hinit', Hc'.
Qed.

Lemma openai_adapter_cache_is_permanent_witness :
  OpenAIPromptSource.get_prompt
    (OpenAIPromptSource.get_prompt Scenarios.fresh_source
       Scenarios.flaky_world "abc" None).1.2
    (tick 1000000 Scenarios.flaky_world) "abc" None
  = (Return (Some "Hello"),
     (OpenAIPromptSource.get_prompt Scenarios.fresh_source
        Scenarios.flaky_world "abc" None).1.2,
     tick 1000000 Scenarios.flaky_world).
Proof.
  apply (openai_adapter_cache_is_permanent Scenarios.fresh_source _
           Scenarios.flaky_world
           (OpenAIPromptSource.get_prompt Scenarios.fresh_source
              Scenarios.flaky_world "abc" None).2 "abc" None "Hello").
  by vm_compute.
Defined.

(** ** What [PromptManager.get_prompt] leaves alone *)

Section ManagerFrame.
Import PromptManager.

Lemma get_cached_frame (m : t) (w : World) (cache_key : string) :
  config (_get_cached m w cache_key).2 = config m
  ∧ registry (_get_cached m w cache_key).2 = registry m
  ∧ _sources (_get_cached m w cache_key).2 = _sources m.
Proof. unfold _get_cached. by repeat case_match. Qed.

Lemma get_source_frame (m : t) (st : SourceType) :
  config (_get_source m st) = config m
  ∧ registry (_get_source m st) = registry m
  ∧ _cache (_get_source m st) = _cache m.
Proof. unfold _get_source. by repeat case_match. Qed.

Lemma source_get_prompt_frame (m : t) (w : World) (st : SourceType)
    (prompt_id : string) (rp : retrieval_params_t) :
  config (source_get_prompt m w st prompt_id rp).1.2 = config m
  ∧ registry (source_get_prompt m w st prompt_id rp).1.2 = registry m
  ∧ _cache (source_get_prompt m w st prompt_id rp).1.2 = _cache m.
Proof.
  unfold source_get_prompt. destruct st.
  - destruct (openai_source (_sources m)); [| done].
    by destruct (OpenAIPromptSource.get_prompt _ _ _ _) as [[? ?] ?].
  - destruct (local_source (_sources m)); [| done].
    by destruct (LocalFileSource.get_prompt _ _ _ _ _ _) as [[? ?] ?].
Qed.

Lemma cache_prompt_frame (m : t) (w : World) (cache_key : string)
    (content : option string) (ttl : Z) :
  config (_cache_prompt m w cache_key content ttl) = config m
  ∧ registry (_cache_prompt m w cache_key content ttl) = registry m.
Proof. unfold _cache_prompt. by case_match. Qed.

Lemma get_prompt_body_frame (m : t) (w : World) (name : string)
    (version : option string) (variables : option (gmap string string))
    (default_ : option string) (kwargs : gmap string string) :
  config (get_prompt_body m w name version variables default_ kwargs).1.2 = config m
  ∧ registry (get_prompt_body m w name version variables default_ kwargs).1.2
    = registry m.
Proof.
  unfold get_prompt_body.
  destruct (get_cached_frame m w (name +:+ ":" +:+ PyStr.or_latest version))
    as (Hc & Hr & _).
  destruct (_get_cached m w _) as [[cached|] m1]; simpl in Hc, Hr; [done |].
  destruct (PromptRegistry.get (registry m1) name) as [cfg|e|]; simpl;
    [| by destruct default_ | done].
  destruct (get_source_frame m1 (PromptConfig.source cfg)) as (Hc2 & Hr2 & _).
  match goal with
  | |- context [source_get_prompt ?a ?b ?c ?d ?e] =>
      destruct (source_get_prompt_frame a b c d e) as (Hc3 & Hr3 & _);
      destruct (source_get_prompt a b c d e) as [[[content|e'|] m3] w3]
  end; simpl in Hc3, Hr3 |- *; try (split; congruence).
  destruct (PromptManagerConfig.cache_enabled (config m3)); simpl;
    [| split; congruence].
  match goal with
  | |- context [_cache_prompt ?a ?b ?c ?d ?e] =>
      destruct (cache_prompt_frame a b c d e) as (Hc4 & Hr4)
  end.
  split; congruence.
Qed.

Lemma get_prompt_state (m : t) (w : World) (name : string)
    (version : option string) (variables : option (gmap string string))
    (default_ : option string) (kwargs : gmap string string) :
  (get_prompt m w name version variables default_ kwargs).1.2
    = (get_prompt_body m w name version variables default_ kwargs).1.2
  ∧ (get_prompt m w name version variables default_ kwargs).2
    = (get_prompt_body m w name version variables default_ kwargs).2.
Proof.
  unfold get_prompt.
  destruct (get_prompt_body _ _ _ _ _ _ _) as [[[v|e|] m'] w']; try done.
  by destruct default_.
Qed.
End ManagerFrame.

(** X12. [get_prompt] never changes the manager's configuration or its
    registry, whatever it returns or raises: retrieval only touches the
    cache and the adapters. *)
Theorem get_prompt_keeps_config_and_registry
    (m : PromptManager.t) (w : World) (name : string) (version : option string)
    (variables : option (gmap string string)) (default_ : option string)
    (kwargs : gmap string string) :
  PromptManager.config
    (PromptManager.get_prompt m w name version variables default_ kwargs).1.2
    = PromptManager.config m
  ∧ PromptManager.registry
      (PromptManager.get_prompt m w name version variables default_ kwargs).1.2
    = PromptManager.registry m.
Proof.
  destruct (get_prompt_state m w name version variables default_ kwargs) as [-> _].
  apply get_prompt_body_frame.
Qed.

(** X13. With a default supplied, [get_prompt] raises only if substituting
    the variables into the default itself raises: a failure of the cache
    path, of the registry lookup or of the adapter is swallowed, whatever
    the state of the manager and of the outside world. *)
Theorem get_prompt_with_default_swallows_failures
    (m : PromptManager.t) (w : World) (name : string) (version : option string)
    (variables : option (gmap string string)) (d : string)
    (kwargs : gmap string string) :
  not_raised (PromptManager._apply_variables (Some d) variables) →
  not_raised
    (PromptManager.get_prompt m w name version variables (Some d) kwargs).1.1.
Proof.
  intros Hd. unfold PromptManager.get_prompt.
  destruct (PromptManager.get_prompt_body _ _ _ _ _ _ _) as [[[v|e'|] m'] w'];
    simpl; [done | apply Hd | done].
Qed.

(** The manager without an API key: the adapter's failure is swallowed. *)
Lemma get_prompt_with_default_swallows_failures_witness :
  not_raised
    (PromptManager.get_prompt Scenarios.keyless_manager Scenarios.hello_world
       "ai" None None (Some "fallback") ∅).1.1.
Proof.
  apply (get_prompt_with_default_swallows_failures Scenarios.keyless_manager
           Scenarios.hello_world "ai" None None "fallback" ∅).
  exact I.
Defined.

(** ** Two calls in a row *)

Lemma or_int_nonzero (o : option Z) (z : Z) : z ≠ 0 → PyStr.or_int o z ≠ 0.
Proof.
  intros Hz. unfold PyStr.or_int. destruct o as [n|]; [| done].
  destruct (Z.eqb_spec n 0); done.
Qed.

(** A fetch that misses the manager's cache and returns a content leaves
    that content in the cache, stamped with the time at which it ended. *)
Lemma get_prompt_fetch_stores
    (m m' : PromptManager.t) (w w' : World) (name : string)
    (version : option string) (kwargs : gmap string string) (content : string) :
  let cache_key := name +:+ ":" +:+ PyStr.or_latest version in
  PromptManagerConfig.cache_enabled (PromptManager.config m) = true →
  PromptManagerConfig.cache_ttl (PromptManager.config m) ≠ 0 →
  (PromptManager._get_cached m w cache_key).1 = None →
  PromptManager.get_prompt m w name version None None kwargs
    = (Return (Some content), m', w') →
  PromptManager._cache m' !! cache_key = Some (Some content, now w')
  ∧ PromptManager.config m' = PromptManager.config m.
Proof.
  intros cache_key Hen Httl Hmiss Hget.
  unfold PromptManager.get_prompt, PromptManager.get_prompt_body in Hget.
  fold cache_key in Hget.
  destruct (get_cached_frame m w cache_key) as (Hc1 & _ & _).
  destruct (PromptManager._get_cached m w cache_key) as [cached m1].
  simpl in Hmiss, Hc1. subst cached.
  destruct (PromptRegistry.get (PromptManager.registry m1) name) as [cfg|e|];
    [| done | done].
  destruct (get_source_frame m1 (PromptConfig.source cfg)) as (Hc2 & _ & _).
  match type of Hget with
  | context [PromptManager.source_get_prompt ?a ?b ?c ?d ?e] =>
      destruct (source_get_prompt_frame a b c d e) as (Hc3 & _ & _);
      destruct (PromptManager.source_get_prompt a b c d e) as [[[got|e'|] m3] w3]
  end; simpl in Hc3, Hget; [| done | done].
  assert (Hcfg : PromptManager.config m3 = PromptManager.config m) by congruence.
  rewrite Hcfg, Hen in Hget.
  unfold PromptManager._apply_variables in Hget. simpl in Hget.
  injection Hget as -> <- <-.
  unfold PromptManager._cache_prompt. rewrite Hcfg, Hen. simpl.
  destruct (Z.eqb_spec (PyStr.or_int (PromptConfig.cache_ttl cfg)
              (PromptManagerConfig.cache_ttl (PromptManager.config m))) 0) as [E|_].
  - by apply or_int_nonzero in E.
  - simpl. by rewrite lookup_insert_eq.
Qed.

(** X14. Caching between two calls.  With the cache enabled and a manager
    TTL other than zero, if a [get_prompt] without variables misses the
    manager's cache, fetches and returns a content, then a second
    [get_prompt] for the same name and version, [d] seconds later, returns
    the same content and touches neither the manager nor the outside world
    (no API call, no file read), provided [d] is at most the manager TTL or
    the manager TTL is negative. *)
Theorem get_prompt_twice_fetches_once
    (m m' : PromptManager.t) (w w' : World) (name : string)
    (version : option string) (kwargs : gmap string string) (content : string) :
  PromptManagerConfig.cache_enabled (PromptManager.config m) = true →
  PromptManagerConfig.cache_ttl (PromptManager.config m) ≠ 0 →
  (PromptManager._get_cached m w (name +:+ ":" +:+ PyStr.or_latest version)).1
    = None →
  PromptManager.get_prompt m w name version None None kwargs
    = (Return (Some content), m', w') →
  ∀ (d : Z) (default2 : option string) (kwargs2 : gmap string string),
    PromptManagerConfig.cache_ttl (PromptManager.config m) < 0
    ∨ d ≤ PromptManagerConfig.cache_ttl (PromptManager.config m) →
    PromptManager.get_prompt m' (tick d w') name version None default2 kwargs2
      = (Return (Some content), m', tick d w').
Proof.
  intros Hen Httl Hmiss Hget d default2 kwargs2 Hd.
  destruct (get_prompt_fetch_stores m m' w w' name version kwargs content
              Hen Httl Hmiss Hget) as [Hstored Hcfg].
  unfold PromptManager.get_prompt, PromptManager.get_prompt_body,
    PromptManager._get_cached.
  rewrite Hcfg, Hen, Hstored. simpl.
  assert ((0 <? PromptManagerConfig.cache_ttl (PromptManager.config m))
          && (PromptManagerConfig.cache_ttl (PromptManager.config m)
                <? now w' + d - now w') = false) as ->.
  { apply andb_false_iff. destruct Hd as [Hneg | Hle].
    - left. apply Z.ltb_ge. lia.
    - right. apply Z.ltb_ge. lia. }
  reflexivity.
Qed.

Lemma get_prompt_twice_fetches_once_witness :
  PromptManager.get_prompt (Scenarios.first_get None).1.2
    (tick 3600 (Scenarios.first_get None).2) "p" None None (Some "unused") ∅
  = (Return (Some "Hello"), (Scenarios.first_get None).1.2,
     tick 3600 (Scenarios.first_get None).2).
Proof.
  refine (get_prompt_twice_fetches_once (Scenarios.openai_manager None)
            (Scenarios.first_get None).1.2 Scenarios.hello_world
            (Scenarios.first_get None).2 "p" None ∅ "Hello"
            _ _ _ _ 3600 (Some "unused") ∅ (or_intror _));
    by vm_compute.
Defined.

(** X15. The manager's cache is not the only one.  For a prompt of the
    OpenAI source whose content the adapter already holds, a [get_prompt]
    (no version, no variables, no extra parameters) that misses the
    manager's cache, for instance after [clear_cache()] or once the TTL has
    passed, is answered from the adapter's own cache: it returns that
    content and makes no API call. *)
Theorem manager_miss_served_by_adapter_cache
    (m : PromptManager.t) (w : World) (name : string) (default_ : option string)
    (prompt_config : PromptConfig.t) (s : OpenAIPromptSource.t) (content : string) :
  let prompt_id :=
    default name (PromptConfig.source_config prompt_config !! "prompt_id") in
  let version := PromptConfig.source_config prompt_config !! "version" in
  PromptRegistry._prompts (PromptManager.registry m) !! name = Some prompt_config →
  PromptConfig.source prompt_config = OPENAI →
  PromptManager.openai_source (PromptManager._sources m) = Some s →
  OpenAIPromptSource._initialized s = true →
  OpenAIPromptSource._cache s !! (prompt_id +:+ ":" +:+ PyStr.or_latest version)
    = Some content →
  (PromptManager._get_cached m w (name +:+ ":latest")).1 = None →
  ∃ m', PromptManager.get_prompt m w name None None default_ ∅
        = (Return (Some content), m', w).
Proof.
  intros prompt_id version Hreg Hsrc Hs Hinit Hcached Hmiss.
  unfold PromptManager.get_prompt, PromptManager.get_prompt_body.
  cbn [PyStr.or_latest].
  destruct (get_cached_frame m w (name +:+ ":" +:+ "latest")) as (_ & Hr1 & Hs1).
  change (name +:+ ":latest") with (name +:+ ":" +:+ "latest") in Hmiss.
  destruct (PromptManager._get_cached m w (name +:+ ":" +:+ "latest")) as [cached m1].
  cbn [fst snd] in Hmiss, Hr1, Hs1. subst cached.
  unfold PromptRegistry.get. rewrite Hr1, Hreg, Hsrc.
  assert (Hparams : PromptManager.params
                      (PromptManager.retrieval_params prompt_config None None ∅)
                    = delete "variables" (PromptConfig.source_config prompt_config)).
  { unfold PromptManager.retrieval_params. cbn [PromptManager.params].
    apply (left_id_L ∅ (∪)). }
  rewrite Hparams. rewrite lookup_delete_ne by done. fold prompt_id.
  unfold PromptManager._get_source. rewrite Hs1, Hs.
  unfold PromptManager.source_get_prompt. rewrite Hs1, Hs.
  cbn [PromptManager.params].
  rewrite lookup_delete_ne by done. rewrite lookup_delete_ne by done.
  fold version.
  unfold OpenAIPromptSource.get_prompt, OpenAIPromptSource._ensure_initialized.
  rewrite Hinit, Hcached.
  unfold PromptManager._apply_variables. cbn [PromptManager.truthy_variables negb].
  by eexists.
Qed.

Lemma manager_miss_served_by_adapter_cache_witness :
  ∃ m', PromptManager.get_prompt
          (PromptManager.clear_cache (Scenarios.first_get None).1.2)
          (tick 100000 (Scenarios.first_get None).2) "p" None None None ∅
        = (Return (Some "Hello"), m', tick 100000 (Scenarios.first_get None).2).
Proof.
  apply (manager_miss_served_by_adapter_cache
           (PromptManager.clear_cache (Scenarios.first_get None).1.2)
           (tick 100000 (Scenarios.first_get None).2) "p" None
           (PromptConfig.mk "p" OPENAI {["prompt_id" := "abc"]} None)
           (OpenAIPromptSource.mk
              (OpenAIPromptSource.mk_config (Some "sk-test") (Some 30) (Some 3))
              true (Some "sk-test") {["abc:latest" := "Hello"]})
           "Hello");
    by vm_compute.
Defined.

(** ** Validation *)

Lemma concat_nil_iff {A : Type} (ls : list (list A)) :
  concat ls = [] ↔ ∀ l, l ∈ ls → l = [].
Proof.
  induction ls as [|a ls IH]; simpl.
  - split; [intros _ l Hl; by apply elem_of_nil in Hl | done].
  - split.
    + intros [-> Hrest]%app_eq_nil l [-> | Hl]%elem_of_cons; [done |].
      by apply IH.
    + intros H. rewrite (H a (list_elem_of_here _ _)). simpl.
      apply IH. intros l Hl. apply H. by apply list_elem_of_further.
Qed.

(** X16. [PromptManagerConfig.validate_sources()] reports no error exactly
    when at least one of the API key and the prompts directory is set and
    every configured prompt has what its source needs: for an OpenAI prompt
    the API key and a [prompt_id], for a local prompt the prompts directory
    and an explicit [path]. *)
Theorem validate_sources_empty_iff (c : PromptManagerConfig.t) :
  let has_openai := PyStr.truthy_ostr (PromptManagerConfig.openai_api_key c) in
  let has_local := PyStr.truthy_ostr (PromptManagerConfig.prompts_dir c) in
  PromptManagerConfig.validate_sources c = []
  ↔ (has_openai = true ∨ has_local = true)
    ∧ ∀ name config,
        PromptManagerConfig.prompts c !! name = Some config →
        match PromptConfig.source config with
        | OPENAI => has_openai = true
                    ∧ is_Some (PromptConfig.source_config config !! "prompt_id")
        | LOCAL => has_local = true
                   ∧ is_Some (PromptConfig.source_config config !! "path")
        end.
Proof.
  intros has_openai has_local. unfold PromptManagerConfig.validate_sources.
  fold has_openai has_local.
  rewrite app_nil, concat_nil_iff. split.
  - intros [Hany Hall]. split.
    + destruct has_openai, has_local; simpl in Hany; auto; discriminate.
    + intros name config Hl.
      specialize (Hall (PromptManagerConfig.prompt_source_errors
                          has_openai has_local name config)).
      assert (Hin : PromptManagerConfig.prompt_source_errors
                      has_openai has_local name config
                    ∈ (λ kv, PromptManagerConfig.prompt_source_errors
                               has_openai has_local kv.1 kv.2)
                        <$> map_to_list (PromptManagerConfig.prompts c)).
      { apply list_elem_of_fmap. exists (name, config).
        split; [done |]. by apply elem_of_map_to_list. }
      specialize (Hall Hin). unfold PromptManagerConfig.prompt_source_errors in Hall.
      destruct (PromptConfig.source config);
        apply app_eq_nil in Hall as [H1 H2];
        repeat case_match; try discriminate;
        (split; [by apply negb_false_iff |];
         match goal with
         | Hb : bool_decide _ = true |- _ => by apply bool_decide_eq_true in Hb
         end).
  - intros [Hany Hall]. split.
    + destruct Hany as [-> | ->]; [done | by rewrite orb_true_r].
    + intros l ([name config] & -> & Hl%elem_of_map_to_list)%list_elem_of_fmap.
      specialize (Hall name config Hl).
      unfold PromptManagerConfig.prompt_source_errors. simpl.
      destruct (PromptConfig.source config); destruct Hall as [-> Hk];
        by rewrite bool_decide_eq_true_2.
Qed.

(** X17. [PromptManager.validate(mode)] in a mode other than [LOAD_TEST]
    either returns or raises [ValidationError].  It returns exactly when
    the registry check finds no error and, unless the mode is [NONE], the
    configuration check finds none either: in mode [NONE] the registry is
    still checked. *)
Theorem validate_light_modes (m : PromptManager.t) (mode : ValidationMode) :
  mode ≠ LOAD_TEST →
  (PromptManager.validate m (Some mode) = Return tt
   ↔ (mode = NONE
      ∨ PromptManagerConfig.validate_sources (PromptManager.config m) = [])
     ∧ PromptRegistry.validate_prompts (PromptManager.registry m) None = [])
  ∧ (PromptManager.validate m (Some mode) = Return tt
     ∨ ∃ e, PromptManager.validate m (Some mode) = Raise e
            ∧ exn_class e = ValidationError).
Proof.
  intros Hmode. unfold PromptManager.validate, PromptManagerConfig.validate.
  cbn [default from_option].
  destruct mode; [| | done].
  - destruct (PromptRegistry.validate_prompts _ None) as [|err errs].
    + split; [| by left]. split; [auto | done].
    + split; [| right; by eexists]. split; [done | by intros [_ ?]].
  - destruct (PromptManagerConfig.validate_sources _) as [|cerr cerrs].
    + destruct (PromptRegistry.validate_prompts _ None) as [|err errs].
      * split; [| by left]. split; [auto | done].
      * split; [| right; by eexists]. split; [done | by intros [_ ?]].
    + split; [| right; by eexists].
      split; [done |]. intros [[? | ?] _]; done.
Qed.

(** A registry holding an OpenAI prompt without [prompt_id] fails
    validation even in mode [NONE]. *)
Lemma validate_light_modes_witness :
  ∃ e, PromptManager.validate
         (PromptManager.mk (Fixtures.base_config None None)
            Scenarios.registry_overwritten (PromptManager.mk_sources None None) ∅)
         (Some NONE) = Raise e
       ∧ exn_class e = ValidationError.
Proof.
  destruct (validate_light_modes
              (PromptManager.mk (Fixtures.base_config None None)
                 Scenarios.registry_overwritten
                 (PromptManager.mk_sources None None) ∅)
              NONE ltac:(discriminate)) as [Hiff [Hok | Hraised]].
  - apply Hiff in Hok as [_ Hok]. vm_compute in Hok. discriminate.
  - exact Hraised.
Defined.

(** ** The local adapter *)

Section LocalAdapter.
Import LocalFileSource.

Lemma local_ensure_initialized_ok (s s1 : t) (w : World) :
  _ensure_initialized s w = (Return tt, s1) →
  _initialized s1 = true ∧ _auto_reload s1 = _auto_reload s.
Proof.
  unfold _ensure_initialized, initialize.
  destruct (_initialized s) eqn:E; [intros [= <-]; auto |].
  repeat case_match; try done; intros [= <-]; simplify_eq; auto.
Qed.

(** The resolved path depends on the adapter through its base directory only. *)
Lemma resolve_file_path_base_dir (s s' : t) (w : World) (prompt_id : string)
    (version path : option string) :
  _base_dir s = _base_dir s' →
  _resolve_file_path s w prompt_id version path
    = _resolve_file_path s' w prompt_id version path.
Proof. intros H. unfold _resolve_file_path. by rewrite H. Qed.
End LocalAdapter.



(** X19. The local adapter (auto-reload off) keys its cache by the
    resolved path alone: once [get_prompt] has returned a content, every
    later [get_prompt] that resolves to the same path returns that same
    content without reading the file, whatever the file now holds and
    whatever variables are passed. *)
Theorem local_adapter_cache_ignores_variables
    (s s' : LocalFileSource.t) (w w' : World) (prompt_id : string)
    (version path : option string) (variables : LocalFileSource.variables_arg)
    (content : string) :
  LocalFileSource._auto_reload s = false →
  LocalFileSource.get_prompt s w prompt_id version path variables
    = (Return (Some content), s', w') →
  ∀ w2 variables2,
    LocalFileSource._resolve_file_path s' w2 prompt_id version path
      = LocalFileSource._resolve_file_path s' w prompt_id version path →
    LocalFileSource.get_prompt s' w2 prompt_id version path variables2
      = (Return (Some content), s', w2).
Proof.
  intros Hauto Hget w2 variables2 Hsame.
  unfold LocalFileSource.get_prompt in Hget.
  destruct (LocalFileSource._ensure_initialized s w) as [[[]|e|] s1] eqn:Hi;
    [| done | done].
  destruct (local_ensure_initialized_ok s s1 w Hi) as [Hinit Hauto1].
  rewrite Hauto in Hauto1. cbn zeta in Hget.
  rewrite Hauto1 in Hget. cbn [andb] in Hget. rewrite ?Hauto1 in Hget.
  set (file_path := LocalFileSource._resolve_file_path s1 w prompt_id version path)
    in Hget.
  assert (Hs' : LocalFileSource._initialized s' = true
                ∧ LocalFileSource._auto_reload s' = false
                ∧ LocalFileSource._base_dir s' = LocalFileSource._base_dir s1
                ∧ LocalFileSource._cache s' !! file_path = Some content).
  { destruct (LocalFileSource._cache s1 !! file_path) as [cached|] eqn:Hc.
    - injection Hget as <- <- _. auto.
    - destruct (LocalFileSource._read_file w file_path) as [[got|e|] w1];
        [| done | done].
      destruct (if LocalFileSource.truthy_vars variables
                then LocalFileSource._substitute_variables got variables
                else Return got) as [got'|e|]; [| done | done].
      cbn [LocalFileSource._auto_reload] in Hget. rewrite ?Hauto1 in Hget.
      injection Hget as <- <- _. cbn.
      repeat split; try done. apply lookup_insert_eq. }
  destruct Hs' as (Hinit' & Hauto' & Hbase & Hcached).
  unfold LocalFileSource.get_prompt, LocalFileSource._ensure_initialized.
  rewrite Hinit', Hsame.
  rewrite (resolve_file_path_base_dir s' s1 w prompt_id version path Hbase).
  fold file_path. rewrite Hauto'. cbn [andb]. by rewrite Hauto', Hcached.
Qed.

Lemma local_adapter_cache_ignores_variables_witness :
  LocalFileSource.get_prompt
    (LocalFileSource.get_prompt
       (LocalFileSource.new
          (LocalFileSource.mk_config (Some "/prompts") "utf-8" false))
       Scenarios.greeting_world "greeting.txt" None None
       (LocalFileSource.VarsDict {["name" := "World"]})).1.2
    (tick 60 Scenarios.greeting_world) "greeting.txt" None None
    (LocalFileSource.VarsDict {["name" := "Alice"]})
  = (Return (Some "Hello World!"),
     (LocalFileSource.get_prompt
        (LocalFileSource.new
           (LocalFileSource.mk_config (Some "/prompts") "utf-8" false))
        Scenarios.greeting_world "greeting.txt" None None
        (LocalFileSource.VarsDict {["name" := "World"]})).1.2,
     tick 60 Scenarios.greeting_world).
Proof.
  refine (local_adapter_cache_ignores_variables
            (LocalFileSource.new
               (LocalFileSource.mk_config (Some "/prompts") "utf-8" false))
            _ Scenarios.greeting_world
            (LocalFileSource.get_prompt
               (LocalFileSource.new
                  (LocalFileSource.mk_config (Some "/prompts") "utf-8" false))
               Scenarios.greeting_world "greeting.txt" None None
               (LocalFileSource.VarsDict {["name" := "World"]})).2
            "greeting.txt" None None
            (LocalFileSource.VarsDict {["name" := "World"]}) "Hello World!"
            _ _ (tick 60 Scenarios.greeting_world)
            (LocalFileSource.VarsDict {["name" := "Alice"]}) _);
    by vm_compute.
Defined.

(** ** Existence checks and edge cases of the TTL *)

Lemma retry_loop_not_beyond (prompt_id : string) (version : option string)
    (cache_key : string) (max_retries timeout : Z) (remaining : nat)
    (attempt : Z) (s : OpenAIPromptSource.t) (w : World) :
  (OpenAIPromptSource.retry_loop prompt_id version cache_key max_retries timeout
     remaining attempt s w).1.1 ≠ Beyond.
Proof.
  revert attempt w. induction remaining as [|k IH]; intros attempt w;
    cbn [OpenAIPromptSource.retry_loop]; [done |].
  destruct (OpenAIPromptSource.attempt_body prompt_id version timeout w)
    as [[txt|e] w1]; [done |].
  destruct (OpenAIPromptSource.classify e); [done | | |];
    (destruct (attempt <? max_retries - 1); [apply IH | done]).
Qed.

Lemma openai_get_prompt_not_beyond (s : OpenAIPromptSource.t) (w : World)
    (prompt_id : string) (version : option string) :
  (OpenAIPromptSource.get_prompt s w prompt_id version).1.1 ≠ Beyond.
Proof.
  unfold OpenAIPromptSource.get_prompt.
  destruct (OpenAIPromptSource._ensure_initialized s w) as [[[]|e|] s1] eqn:Hi.
  - destruct (OpenAIPromptSource._cache s1 !! _); [done |].
    apply retry_loop_not_beyond.
  - done.
  - unfold OpenAIPromptSource._ensure_initialized, OpenAIPromptSource.initialize in Hi.
    repeat case_match; done.
Qed.

(** X20. The OpenAI adapter's [validate_prompt_exists] never raises: it
    answers [False] whenever [get_prompt] raises, whatever the error, and
    [True] whenever [get_prompt] returns.  With [max_retries] set to 0 it
    therefore answers [True] for every uncached identifier, without any
    API call. *)
Theorem openai_validate_prompt_exists_answers
    (s : OpenAIPromptSource.t) (w : World) (prompt_id : string)
    (version : option string) :
  (∃ b, (OpenAIPromptSource.validate_prompt_exists s w prompt_id version).1.1
          = Return b
        ∧ (b = true ↔ ∃ v, (OpenAIPromptSource.get_prompt s w prompt_id version).1.1
                            = Return v)
        ∧ (b = false ↔ ∃ e, (OpenAIPromptSource.get_prompt s w prompt_id version).1.1
                             = Raise e))
  ∧ (∀ s1,
       OpenAIPromptSource._ensure_initialized s w = (Return tt, s1) →
       OpenAIPromptSource._cache s1 !! (prompt_id +:+ ":" +:+ PyStr.or_latest version)
         = None →
       OpenAIPromptSource.max_retries (OpenAIPromptSource.config s1) = Some 0 →
       OpenAIPromptSource.validate_prompt_exists s w prompt_id version
         = (Return true, s1, w)).
Proof.
  split.
  - pose proof (openai_get_prompt_not_beyond s w prompt_id version) as Hnb.
    unfold OpenAIPromptSource.validate_prompt_exists.
    destruct (OpenAIPromptSource.get_prompt s w prompt_id version)
      as [[[v|e|] s'] w']; simpl in Hnb |- *; [| | done].
    + exists true. split; [done |]. split; [split; eauto |].
      split; [done | by intros [? ?]].
    + exists false. split; [done |]. split; [| split; eauto].
      split; [done | by intros [? ?]].
  - intros s1 Hinit Hmiss Hzero.
    unfold OpenAIPromptSource.validate_prompt_exists.
    rewrite (get_prompt_is_loop s s1 w prompt_id version Hinit Hmiss), Hzero.
    reflexivity.
Qed.

Lemma openai_validate_prompt_exists_answers_witness :
  OpenAIPromptSource.validate_prompt_exists
    (OpenAIPromptSource.new
       (OpenAIPromptSource.mk_config (Some "sk-test") (Some 30) (Some 0)))
    Scenarios.flaky_world "abc" None
  = (Return true,
     OpenAIPromptSource.mk
       (OpenAIPromptSource.mk_config (Some "sk-test") (Some 30) (Some 0))
       true (Some "sk-test") ∅,
     Scenarios.flaky_world).
Proof.
  refine (proj2 (openai_validate_prompt_exists_answers _ _ _ _) _ _ _ _);
    by vm_compute.
Defined.

(** X21. A manager TTL of zero, with the cache enabled.  A prompt without
    a TTL of its own (or with a TTL of zero) is never stored by
    [_cache_prompt]; a prompt with a TTL of its own other than zero is
    stored and then never expires: [_get_cached] returns its content
    however much time has passed. *)
Theorem manager_ttl_zero
    (m : PromptManager.t) (w : World) (cache_key : string)
    (content : option string) (prompt_ttl : option Z) :
  PromptManagerConfig.cache_enabled (PromptManager.config m) = true →
  PromptManagerConfig.cache_ttl (PromptManager.config m) = 0 →
  let stored :=
    PromptManager._cache_prompt m w cache_key content
      (PyStr.or_int prompt_ttl
         (PromptManagerConfig.cache_ttl (PromptManager.config m))) in
  (PyStr.truthy_oint prompt_ttl = false → stored = m)
  ∧ (PyStr.truthy_oint prompt_ttl = true →
     ∀ d, PromptManager._get_cached stored (tick d w) cache_key
          = (content, stored)).
Proof.
  intros Hen Hzero stored. subst stored.
  unfold PromptManager._cache_prompt, PromptManager._get_cached.
  rewrite Hen, Hzero. simpl. split.
  - intros Hf. destruct prompt_ttl as [n|]; simpl in *; [| done].
    apply negb_false_iff in Hf. by rewrite Hf.
  - intros Ht d. destruct prompt_ttl as [n|]; simpl in *; [| done].
    apply negb_true_iff in Ht. rewrite Ht. apply Z.eqb_neq in Ht.
    assert ((n =? 0) = false) as -> by by apply Z.eqb_neq.
    simpl. rewrite Hen, Hzero, lookup_insert_eq. done.
Qed.

Lemma manager_ttl_zero_witness :
  let m := Fixtures.manager
             (PromptManagerConfig.mk None true 0 NONE (Some "sk-test") 30 3 None ∅) in
  let stored (ttl : option Z) :=
    PromptManager._cache_prompt m Scenarios.hello_world "p:latest" (Some "Hello")
      (PyStr.or_int ttl (PromptManagerConfig.cache_ttl (PromptManager.config m))) in
  stored None = m
  ∧ ∀ d, PromptManager._get_cached (stored (Some 60)) (tick d Scenarios.hello_world)
           "p:latest" = (Some "Hello", stored (Some 60)).
Proof.
  intros m stored. split.
  - apply (proj1 (manager_ttl_zero m Scenarios.hello_world "p:latest"
                    (Some "Hello") None eq_refl eq_refl)).
    reflexivity.
  - apply (proj2 (manager_ttl_zero m Scenarios.hello_world "p:latest"
                    (Some "Hello") (Some 60) eq_refl eq_refl)).
    reflexivity.
Defined.

(** ** Construction of the manager *)

Lemma register_configured_list (l : list (string * PromptConfig.t))
    (r : PromptRegistry.t) :
  NoDup l.*1 →
  (∀ k c, (k, c) ∈ l →
          PromptConfig.name c = k ∧ PromptRegistry._prompts r !! k = None) →
  ∃ r',
    foldl (fun acc kv =>
             match acc with
             | (Return tt, r0) => PromptRegistry.register r0 kv.2 false
             | failed => failed
             end) (Return tt, r) l = (Return tt, r')
    ∧ PromptRegistry._prompts r' = list_to_map l ∪ PromptRegistry._prompts r.
Proof.
  revert r. induction l as [|[k c] l IH]; intros r Hnd Hall.
  - exists r. split; [done |]. simpl. by rewrite (left_id_L ∅ (∪)).
  - cbn [foldl snd]. apply NoDup_cons in Hnd as [Hk Hnd].
    destruct (Hall k c (list_elem_of_here _ _)) as [Hname Hfree].
    unfold PromptRegistry.register at 2. rewrite Hname.
    rewrite bool_decide_eq_false_2 by (rewrite Hfree; by intros [? ?]).
    cbn [andb].
    destruct (IH (PromptRegistry.mk
                    (<[k := c]> (PromptRegistry._prompts r))
                    ({[PromptConfig.source c]} ∪ PromptRegistry._sources_in_use r))
                Hnd) as (r' & Hfold & Hprompts).
    { intros k' c' Hin.
      destruct (Hall k' c' (list_elem_of_further _ _ _ Hin)) as [Hn' Hf'].
      split; [done |]. simpl. rewrite lookup_insert_ne; [done |].
      intros <-. apply Hk. apply list_elem_of_fmap. by exists (k, c'). }
    exists r'. split; [exact Hfold |]. rewrite Hprompts. simpl.
    rewrite <- insert_union_r by (by apply not_elem_of_list_to_map_1).
    by rewrite insert_union_l.
Qed.

(** X22. [PromptManager(config)], start-up validation off: when every
    entry of [config.prompts] is filed under its own name, construction
    succeeds, the registry holds exactly the configured prompts, and the
    manager starts with an empty cache and no adapter instance. *)
Theorem new_registers_configured_prompts (config : PromptManagerConfig.t) :
  PromptManagerConfig.validate_on_startup config = NONE →
  (∀ key prompt_config,
     PromptManagerConfig.prompts config !! key = Some prompt_config →
     PromptConfig.name prompt_config = key) →
  ∃ m, PromptManager.new config = Return m
       ∧ PromptManager.config m = config
       ∧ PromptRegistry._prompts (PromptManager.registry m)
         = PromptManagerConfig.prompts config
       ∧ (∀ name, PromptManager.prompt_exists m name
                  = bool_decide (is_Some (PromptManagerConfig.prompts config !! name)))
       ∧ PromptManager._cache m = ∅
       ∧ PromptManager._sources m = PromptManager.mk_sources None None.
Proof.
  intros Hmode Hnames.
  unfold PromptManager.new, PromptManager._register_configured_prompts.
  destruct (register_configured_list
              (map_to_list (PromptManagerConfig.prompts config))
              PromptRegistry.init) as (r' & -> & Hprompts).
  - apply NoDup_fst_map_to_list.
  - intros k c Hin%elem_of_map_to_list. split; [by apply Hnames |].
    simpl. apply lookup_empty.
  - rewrite Hmode. eexists. split; [reflexivity |]. simpl.
    assert (E : PromptRegistry._prompts r' = PromptManagerConfig.prompts config).
    { rewrite Hprompts. simpl.
      by rewrite (right_id_L ∅ (∪)), list_to_map_to_list. }
    repeat split; try done.
    intros name. unfold PromptManager.prompt_exists, PromptRegistry.exists_.
    simpl. by rewrite E.
Qed.

Lemma new_registers_configured_prompts_witness :
  let config :=
    PromptManagerConfig.mk None true 3600 NONE (Some "sk-test") 30 3 None
      {["a" := Scenarios.openai_a]} in
  ∃ m, PromptManager.new config = Return m
       ∧ PromptManager.config m = config
       ∧ PromptRegistry._prompts (PromptManager.registry m)
         = PromptManagerConfig.prompts config
       ∧ (∀ name, PromptManager.prompt_exists m name
                  = bool_decide (is_Some (PromptManagerConfig.prompts config !! name)))
       ∧ PromptManager._cache m = ∅
       ∧ PromptManager._sources m = PromptManager.mk_sources None None.
Proof.
  intros config. apply (new_registers_configured_prompts config eq_refl).
  intros key prompt_config H. subst config. cbn [PromptManagerConfig.prompts] in H.
  apply lookup_singleton_Some in H as [<- <-]. reflexivity.
Defined.

(** ** Expiry on read *)

(** X23. Expired entries are dropped by the read that finds them.  With
    the cache enabled and a positive manager TTL, an entry written by
    [_cache_prompt] and read by [_get_cached] more than that TTL later is
    reported as a miss and removed from the cache; the entries under other
    keys stay as they were before the write. *)
Theorem expired_entry_is_removed_on_read
    (m : PromptManager.t) (w : World) (cache_key : string)
    (content : option string) (ttl d : Z) :
  PromptManagerConfig.cache_enabled (PromptManager.config m) = true →
  0 < PromptManagerConfig.cache_ttl (PromptManager.config m) →
  ttl ≠ 0 →
  PromptManagerConfig.cache_ttl (PromptManager.config m) < d →
  let read :=
    PromptManager._get_cached
      (PromptManager._cache_prompt m w cache_key content ttl)
      (tick d w) cache_key in
  read.1 = None
  ∧ PromptManager._cache read.2 !! cache_key = None
  ∧ ∀ other, other ≠ cache_key →
             PromptManager._cache read.2 !! other = PromptManager._cache m !! other.
Proof.
  intros Hen Hpos Httl Hd read. subst read.
  unfold PromptManager._cache_prompt, PromptManager._get_cached.
  rewrite Hen. apply Z.eqb_neq in Httl. rewrite Httl. simpl.
  rewrite Hen, lookup_insert_eq. simpl.
  assert ((0 <? PromptManagerConfig.cache_ttl (PromptManager.config m)) = true)
    as -> by (by apply Z.ltb_lt).
  assert ((PromptManagerConfig.cache_ttl (PromptManager.config m)
             <? now w + d - now w) = true) as -> by (apply Z.ltb_lt; lia).
  simpl. split; [done |]. split; [apply lookup_delete_eq |].
  intros other Hne. rewrite lookup_delete_ne by done. by rewrite lookup_insert_ne.
Qed.

Lemma expired_entry_is_removed_on_read_witness :
  let read :=
    PromptManager._get_cached
      (PromptManager._cache_prompt (Scenarios.openai_manager None)
         Scenarios.hello_world "p:latest" (Some "Hello") 60)
      (tick 3601 Scenarios.hello_world) "p:latest" in
  read.1 = None
  ∧ PromptManager._cache read.2 !! "p:latest" = None
  ∧ ∀ other, other ≠ "p:latest" →
             PromptManager._cache read.2 !! other
             = PromptManager._cache (Scenarios.openai_manager None) !! other.
Proof.
  apply (expired_entry_is_removed_on_read (Scenarios.openai_manager None)
           Scenarios.hello_world "p:latest" (Some "Hello") 60 3601);
    by vm_compute.
Defined.

(** ** What reaches the API *)

Lemma retry_loop_first_call (prompt_id : string) (version : option string)
    (cache_key : string) (max_retries timeout : Z) (remaining : nat)
    (attempt : Z) (s : OpenAIPromptSource.t) (w : World) :
  ∃ rest,
    trace (OpenAIPromptSource.retry_loop prompt_id version cache_key max_retries
             timeout remaining attempt s w).2
    = (trace w
         ++ match remaining with
            | O => []
            | S _ => EvApiCall prompt_id (Backoff.sent_version version) timeout
                       :: rest
            end)%list.
Proof.
  revert attempt w. induction remaining as [|k IH]; intros attempt w.
  - exists []. simpl. by rewrite app_nil_r.
  - cbn [OpenAIPromptSource.retry_loop]. rewrite attempt_body_eq.
    set (call := EvApiCall prompt_id (Backoff.sent_version version) timeout).
    assert (Hnext : ∀ w1 extra,
              trace w1 = (trace w ++ call :: extra)%list →
              ∃ rest,
                trace (OpenAIPromptSource.retry_loop prompt_id version cache_key
                         max_retries timeout k (attempt + 1) s w1).2
                = (trace w ++ call :: rest)%list).
    { intros w1 extra Hw1. destruct (IH (attempt + 1) w1) as [rest Hrest].
      rewrite Hrest, Hw1, <- app_assoc. simpl. by eexists. }
    destruct (Backoff.body_result prompt_id _) as [txt|e];
      [exists []; done |].
    destruct (OpenAIPromptSource.classify e); [exists []; done | | |];
      (destruct (attempt <? max_retries - 1); [| exists []; done]).
    + apply (Hnext _ [EvSleep (2 ^ attempt)]). simpl. by rewrite <- app_assoc.
    + apply (Hnext _ []). done.
    + apply (Hnext _ [EvSleep 1]). simpl. by rewrite <- app_assoc.
Qed.

(** X24. Which identifier, version and timeout reach the API.  On the
    first [get_prompt] for a registered OpenAI prompt (nothing cached, API
    key set, at least one attempt allowed), the first thing the call does
    to the outside world is one API call whose identifier is the
    [prompt_id] extra parameter if given, else the [prompt_id] of the
    source configuration, else the registered name; whose version is the
    [version] argument if it is non-empty, else the configured version;
    and whose timeout is the configured OpenAI timeout. *)
Theorem first_api_call_arguments
    (m : PromptManager.t) (w : World) (name : string) (version : option string)
    (variables : option (gmap string string)) (default_ : option string)
    (kwargs : gmap string string) (prompt_config : PromptConfig.t)
    (api_key : string) :
  let prompt_id :=
    default (default name (PromptConfig.source_config prompt_config !! "prompt_id"))
            (kwargs !! "prompt_id") in
  let sent :=
    if PyStr.truthy_ostr version then version
    else PromptConfig.source_config prompt_config !! "version" in
  PromptRegistry._prompts (PromptManager.registry m) !! name = Some prompt_config →
  PromptConfig.source prompt_config = OPENAI →
  PromptManager._cache m !! (name +:+ ":" +:+ PyStr.or_latest version) = None →
  PromptManager.openai_source (PromptManager._sources m) = None →
  HAS_OPENAI w = true →
  PromptManagerConfig.openai_api_key (PromptManager.config m) = Some api_key →
  PyStr.truthy_str api_key = true →
  client_ctor w api_key = None →
  1 ≤ PromptManagerConfig.openai_max_retries (PromptManager.config m) →
  kwargs !! "version" = None →
  ∃ rest,
    trace (PromptManager.get_prompt m w name version variables default_ kwargs).2
    = (trace w
         ++ EvApiCall prompt_id (Backoff.sent_version sent)
              (PromptManagerConfig.openai_timeout (PromptManager.config m))
            :: rest)%list.
Proof.
  intros prompt_id sent Hreg Hsrc Hmiss Hfirst Hlib Hkey Htruthy Hctor Hbudget Hkw.
  destruct (get_prompt_state m w name version variables default_ kwargs) as [_ ->].
  unfold PromptManager.get_prompt_body.
  rewrite (get_cached_absent m w _ Hmiss).
  unfold PromptRegistry.get. rewrite Hreg, Hsrc.
  unfold PromptManager._get_source. rewrite Hfirst.
  unfold PromptManager.source_get_prompt.
  cbn [PromptManager._sources PromptManager.openai_source PromptManager.params].
  assert (Hpid : default name
                   (PromptManager.params
                      (PromptManager.retrieval_params prompt_config version
                         variables kwargs) !! "prompt_id") = prompt_id).
  { unfold PromptManager.retrieval_params. cbn [PromptManager.params].
    rewrite lookup_union. subst prompt_id.
    destruct (kwargs !! "prompt_id") as [x|]; simpl.
    - by rewrite (union_Some_l x).
    - rewrite (left_id_L None union). rewrite lookup_delete_ne by done.
      destruct version as [v|]; [| done].
      destruct (PyStr.truthy_str v); [| done]. by rewrite lookup_insert_ne. }
  assert (Hver : delete "prompt_id"
                   (PromptManager.params
                      (PromptManager.retrieval_params prompt_config version
                         variables kwargs)) !! "version" = sent).
  { unfold PromptManager.retrieval_params. cbn [PromptManager.params].
    rewrite lookup_delete_ne by done. rewrite lookup_union, Hkw.
    rewrite (left_id_L None union). rewrite lookup_delete_ne by done.
    subst sent. destruct version as [v|]; simpl; [| done].
    destruct (PyStr.truthy_str v); [| done]. by rewrite lookup_insert_eq. }
  rewrite Hpid, Hver.
  unfold OpenAIPromptSource.get_prompt, OpenAIPromptSource._ensure_initialized,
    OpenAIPromptSource.new, OpenAIPromptSource.initialize,
    PromptManager._get_source_config_openai.
  cbn [OpenAIPromptSource._initialized OpenAIPromptSource.config
       OpenAIPromptSource.api_key OpenAIPromptSource._cache
       OpenAIPromptSource._client OpenAIPromptSource.max_retries
       OpenAIPromptSource.timeout PromptManager.config].
  rewrite Hlib, Hkey, Htruthy, Hctor.
  cbn [negb OpenAIPromptSource._initialized OpenAIPromptSource.config
       OpenAIPromptSource.api_key OpenAIPromptSource._cache
       OpenAIPromptSource._client OpenAIPromptSource.max_retries
       OpenAIPromptSource.timeout].
  rewrite lookup_empty.
  cbn [default from_option].
  destruct (Z.to_nat (PromptManagerConfig.openai_max_retries (PromptManager.config m)))
    as [|k] eqn:Ek; [lia |].
  match goal with
  | |- context [OpenAIPromptSource.retry_loop ?a ?b ?c ?d ?e ?f ?g ?h ?i] =>
      destruct (retry_loop_first_call a b c d e f g h i) as [rest Hrest];
      destruct (OpenAIPromptSource.retry_loop a b c d e f g h i) as [[res s'] w']
  end.
  exists rest. simpl in Hrest. rewrite Ek in Hrest.
  destruct res as [content|e|]; simpl; exact Hrest.
Qed.

Lemma first_api_call_arguments_witness :
  ∃ rest,
    trace (PromptManager.get_prompt (Scenarios.openai_manager None)
             Scenarios.hello_world "p" (Some "2") None None ∅).2
    = (trace Scenarios.hello_world ++ EvApiCall "abc" (Some "2") 30 :: rest)%list.
Proof.
  refine (first_api_call_arguments (Scenarios.openai_manager None)
            Scenarios.hello_world "p" (Some "2") None None ∅
            (PromptConfig.mk "p" OPENAI {["prompt_id" := "abc"]} None) "sk-test"
            _ _ _ _ _ _ _ _ _ _);
    by vm_compute.
Defined.
